(** * Nickname synchronisation of the Overwatch statistics bot

  A shallow embedding of [classes/nickname.py] (the [Nickname] class) and of
  the parts of [cogs/profile.py] that drive it ([get_profiles],
  [select_profile], the [nickname] command and the nickname hook of the
  [ratings] command), followed by the properties of the encoder and of the
  bind / unbind / refresh operations. *)

From Stdlib Require Import ZArith String Ascii List DecimalString.
From stdpp Require Import gmap strings list.

Local Open Scope Z_scope.

(** ** Python values *)

Module Py.

(** A Python [str] is a sequence of Unicode code points; [len] counts code
    points, so an emoji glyph is one or two elements, never its UTF-8
    bytes. *)
Abbreviation str := (list N).

(** A string literal of the source that only holds ASCII characters. *)
Definition lit (s : string) : str :=
  map N_of_ascii (list_ascii_of_string s).

(** [len(s)] *)
Definition len {A} (s : list A) : Z := Z.of_nat (length s).

(** [s[:x]]: for [x >= 0] the first [x] elements (all of [s] when it is
    shorter); for [x < 0] the stop index is [len(s) + x] clamped at 0, that
    is, the last [-x] elements are dropped. *)
Definition slice_to {A} (s : list A) (x : Z) : list A :=
  if x <? 0 then take (Z.to_nat (len s + x)) s else take (Z.to_nat x) s.

(** [str(v)] for an [int]: decimal digits, a leading minus sign when
    negative. *)
Definition str_of_int (v : Z) : str :=
  lit (NilZero.string_of_int (Z.to_int v)).

(** How an f-string renders the result of [dict.get]: the value, or the
    text [None] when the key is missing. *)
Definition format_opt (o : option str) : str :=
  match o with
  | Some s => s
  | None => lit "None"
  end.

(** Truth value of an optional dict: [None] and [{}] are both falsy. *)
Definition truthy {A} (d : option (list A)) : bool :=
  match d with
  | None | Some [] => false
  | Some (_ :: _) => true
  end.

(** The exceptions the modelled code can see.  [Forbidden] derives from
    [HTTPException] in discord.py; every constructor derives from
    [Exception]. *)
Inductive exn :=
| HTTPException
| Forbidden
| TypeError
| AttributeError
| OSError
| UniqueViolationError
| NoChoice.

(** [isinstance(e, discord.HTTPException)] *)
Definition is_HTTPException (e : exn) : bool :=
  match e with
  | HTTPException | Forbidden => true
  | _ => false
  end.

(** [isinstance(e, Exception)] *)
Definition is_Exception (e : exn) : bool := true.

End Py.

Import Py.

(** ** [utils/emojis.py]

  The module is not part of the sources at hand; the three glyphs the
  nickname uses are taken as parameters. *)

Record Emojis := {
  u_tank : str;
  u_offense : str;
  u_support : str;
}.

(** A rating mapping as [Profile.resolve_ratings] returns it: a Python dict,
  iterated in insertion order, or [None]. *)
Abbreviation ratings_t := (option (list (string * Z))).

Section Encoder.

Variable emojis : Emojis.

Definition MAX_NICKNAME_LENGTH : Z := 32.

Definition ROLES : gmap string str :=
  <["tank" := u_tank emojis]>
    (<["offense" := u_offense emojis]>
       (<["support" := u_support emojis]> ∅)).

(** The loop of [_generate]: [tmp += f"{ROLES.get(key)}{value}/"] for every
    item of the dict, in the dict's order. *)
Definition suffix_loop (items : list (string * Z)) : str :=
  fold_left
    (fun tmp kv => tmp ++ (format_opt (ROLES !! kv.1) ++ str_of_int kv.2 ++ lit "/"))
    items [].

(** ["[" + tmp[:-1] + "]"] *)
Definition suffix (items : list (string * Z)) : str :=
  lit "[" ++ slice_to (suffix_loop items) (-1) ++ lit "]".

(** The body of [Nickname._generate] on the member's name and the resolved
    ratings.  The module constant [MAX_NICKNAME_LENGTH] is an argument here
    so that statements over other lengths can be written; the unranked
    branch keeps the literal 21 of the source. *)
Definition generate_with (max_len : Z) (name : str) (ratings : ratings_t) : str :=
  if negb (truthy ratings) then
    slice_to name 21 ++ lit " [Unranked]"
  else
    let tmp := suffix (default [] ratings) in
    let x := max_len - len tmp - 1 in
    let name := slice_to name x in
    name ++ lit " " ++ tmp.

End Encoder.

(** ** The persistent store and the chat platform *)

(** One row of the [nickname] table without its key column [id]. *)
Record nickname_row := {
  server_id : Z;
  profile_id : option Z;
}.

Record profile_row := {
  pr_id : Z;
  pr_member_id : Z;
  pr_platform : string;
  pr_username : str;
}.

Record rating_row := {
  rt_profile_id : Z;
  rt_tank : option Z;
  rt_damage : option Z;
  rt_support : option Z;
  rt_date : Z;
}.

(** Modelled from the spec: the schema is not among the sources.  The spec
    gives [nickname(account_id PRIMARY KEY, guild_id, profile_id)], so the
    table is a finite map from the key column to the rest of the row and an
    INSERT on a key that is present violates the key. *)
Record DB := {
  nickname : gmap Z nickname_row;
  profile : list profile_row;
  member : gset Z;
  rating : list rating_row;
}.

(** What the bot sends through the interaction. *)
Inductive output :=
| Defer
| Prompt (content : string)
| FollowupSend (content : string) (ephemeral : bool)
| FollowupSendExn (e : exn)
| FollowupSendPrivateEmbed (profile : Z)
| FollowupSendView (content : string) (options : list Z) (author_id : Z)
| ResponseSendView (content : string) (options : list Z) (author_id : Z).

(** Everything an operation can read or change: the database, the guild
    nicknames held by the platform (keyed by guild and member), what was sent
    to the user, and whether the interaction was already answered. *)
Record World := {
  db : DB;
  nicks : gmap (Z * Z) str;
  outbox : list output;
  response_done : bool;
}.

(** Data a profile holds once [compute_data] has fetched it. *)
Record ProfileData := {
  d_private : bool;
  d_ratings : ratings_t;
}.

(** Modelled from the spec: [classes/profile.py] is not among the sources.
    A [Profile] object is built from a [profile] record; [compute_data] loads
    the snapshot from the stats provider, [resolve_ratings] returns its
    role-rating mapping and [is_private] its privacy flag. *)
Record Profile := {
  p_id : Z;
  p_platform : string;
  p_username : str;
  p_data : option ProfileData;
}.

Definition resolve_ratings (p : Profile) : ratings_t :=
  match p_data p with
  | Some d => d_ratings d
  | None => None
  end.

Definition is_private (p : Profile) : bool :=
  match p_data p with
  | Some d => d_private d
  | None => false
  end.

Record Member := {
  m_id : Z;
  m_name : str;
}.

Record Interaction := {
  user : Member;
  guild : option Z;
}.

(** What the outside answers during one operation: the outcome of
    [member.edit] ([None]: the edit is applied), the user's answer to the
    confirmation prompt, the values held by the select menu once
    [view.wait()] returns (none after a timeout), the profile limit of the
    member's tier, whether the bot's top role is below the author's, and
    the data of the stats provider. *)
Record Env := {
  edit_raises : option exn;
  prompt_answer : bool;
  view_values : list Z;
  profiles_limit : nat;
  top_role_lt : bool;
  fetched : Z -> ProfileData;
}.

(** ** Coroutines as state and exception passing *)

Inductive result (A : Type) :=
| Ok (a : A)
| Raise (e : exn).
Arguments Ok {A} a.
Arguments Raise {A} e.

Definition M (A : Type) : Type := World -> result A * World.

Definition ret {A} (a : A) : M A := fun w => (Ok a, w).

Definition raise {A} (e : exn) : M A := fun w => (Raise e, w).

Definition bind {A B} (m : M A) (k : A -> M B) : M B :=
  fun w =>
    match m w with
    | (Ok a, w') => k a w'
    | (Raise e, w') => (Raise e, w')
    end.

#[global] Instance M_ret : MRet M := @ret.
#[global] Instance M_bind : MBind M := fun A B k m => bind m k.

(** [try: body except C: handler] where [catches] decides [isinstance(e, C)]. *)
Definition try_except {A} (body : M A) (catches : exn -> bool) (handler : exn -> M A) : M A :=
  fun w =>
    match body w with
    | (Raise e, w') => if catches e then handler e w' else (Raise e, w')
    | r => r
    end.

Definition send (o : output) : M unit :=
  fun w =>
    (Ok tt, {| db := db w; nicks := nicks w; outbox := outbox w ++ [o];
               response_done := response_done w |}).

Definition set_db (d : DB) : M unit :=
  fun w =>
    (Ok tt, {| db := d; nicks := nicks w; outbox := outbox w;
               response_done := response_done w |}).

Definition with_nickname (d : DB) (t : gmap Z nickname_row) : DB :=
  {| nickname := t; profile := profile d; member := member d; rating := rating d |}.

(** ** [classes/nickname.py]: the [Nickname] class *)

(** The slots of a [Nickname] object ([bot] is the handle to the world). *)
Record Nickname := {
  n_interaction : Interaction;
  n_profile : option Profile;
  n_member : Member;
  n_guild : option Z;
}.

(** [__init__(self, interaction, *, profile=None)]: [kwargs] are the names of
    the keyword arguments of the call; any keyword other than [profile] is a
    [TypeError]. *)
Definition Nickname_init (interaction : Interaction) (kwargs : list string)
    (profile : option Profile) : M Nickname :=
  if forallb (fun k => String.eqb k "profile") kwargs then
    ret {| n_interaction := interaction;
           n_profile := profile;
           n_member := user interaction;
           n_guild := guild interaction |}
  else raise TypeError.

(** [SELECT EXISTS (SELECT TRUE FROM nickname WHERE id = $1);] *)
Definition exists_ (self : Nickname) : M bool :=
  fun w => (Ok (bool_decide (is_Some (nickname (db w) !! m_id (n_member self)))), w).

Section Nickname.

Variable emojis : Emojis.

Definition _generate (self : Nickname) : M str :=
  match n_profile self with
  | None => raise AttributeError
  | Some p =>
      ret (generate_with emojis MAX_NICKNAME_LENGTH (m_name (n_member self))
             (resolve_ratings p))
  end.

Variable env : Env.

(** [await self.member.edit(nick=nick)]: outside a guild the user is no
    [discord.Member] and has no [edit]; otherwise the platform applies the
    edit or the call raises what [edit_raises] says, leaving the name as it
    was. *)
Definition member_edit (self : Nickname) (nick : option str) : M unit :=
  match n_guild self with
  | None => raise AttributeError
  | Some g =>
      match edit_raises env with
      | Some e => raise e
      | None =>
          fun w =>
            let key := (g, m_id (n_member self)) in
            let nicks' :=
              match nick with
              | Some s => <[key := s]> (nicks w)
              | None => delete key (nicks w)
              end in
            (Ok tt, {| db := db w; nicks := nicks'; outbox := outbox w;
                       response_done := response_done w |})
      end
  end.

Definition update (self : Nickname) : M unit :=
  b ← exists_ self;
  if negb b then ret tt
  else
    nick ← _generate self;
    try_except (member_edit self (Some nick)) is_Exception (fun _ => ret tt).

(** [INSERT INTO nickname (id, server_id, profile_id) VALUES ($1, $2, $3);] *)
Definition execute_insert (id sid : Z) (pid : option Z) : M unit :=
  fun w =>
    match nickname (db w) !! id with
    | Some _ => (Raise UniqueViolationError, w)
    | None =>
        set_db (with_nickname (db w)
                  (<[id := {| server_id := sid; profile_id := pid |}]> (nickname (db w)))) w
    end.

(** [DELETE FROM nickname WHERE id = $1;] *)
Definition execute_delete (id : Z) : M unit :=
  fun w => set_db (with_nickname (db w) (delete id (nickname (db w)))) w.

Definition set_or_remove (self : Nickname) (pid : option Z) (remove : bool) : M unit :=
  nick ← (if negb remove then n ← _generate self; ret (Some n) else ret None);
  try_except (member_edit self nick) is_HTTPException
    (fun _ => send (FollowupSend "Something bad happened while updating your nickname." true));;
  if negb remove then
    match n_guild self with
    | None => raise AttributeError
    | Some g =>
        execute_insert (m_id (n_member self)) g pid;;
        send (FollowupSend "Nickname successfully set." true)
    end
  else
    execute_delete (m_id (n_member self));;
    send (FollowupSend "Nickname successfully removed." true).

End Nickname.

(** ** [cogs/profile.py]: the callers *)

(** [Profile(interaction=interaction, record=r)] *)
Definition Profile_of_record (r : profile_row) : Profile :=
  {| p_id := pr_id r; p_platform := pr_platform r; p_username := pr_username r;
     p_data := None |}.

(** [await profile.compute_data()] *)
Definition compute_data (env : Env) (p : Profile) : Profile :=
  {| p_id := p_id p; p_platform := p_platform p; p_username := p_username p;
     p_data := Some (fetched env (p_id p)) |}.

(** The query of [get_profiles]: the profiles of a member that has a row in
    [member], at most [limit] of them. *)
Definition fetch_profiles (d : DB) (member_id : Z) (limit : nat) : list profile_row :=
  if bool_decide (member_id ∈ member d) then
    take limit (filter (fun r => pr_member_id r = member_id) (profile d))
  else [].

Definition get_profiles (env : Env) (member_id : Z) : M (list Profile) :=
  fun w =>
    let limit := profiles_limit env in
    let records := fetch_profiles (db w) member_id limit in
    (Ok (map Profile_of_record records), w).

Definition mark_done : M unit :=
  fun w =>
    (Ok tt, {| db := db w; nicks := nicks w; outbox := outbox w;
               response_done := true |}).

(** Sending the select menu: through the followup when the interaction was
    already answered, as the first response otherwise. *)
Definition send_view (interaction : Interaction) (message : string)
    (profiles : list Profile) : M unit :=
  fun w =>
    let options := map p_id profiles in
    let author_id := m_id (user interaction) in
    if response_done w then send (FollowupSendView message options author_id) w
    else (send (ResponseSendView message options author_id);; mark_done) w.

(** [select_profile].  The menu's values are profile ids, so [int(choice)] is
    the value itself; [view.wait()] returns with the values [view_values]
    holds. *)
Definition select_profile (env : Env) (interaction : Interaction) (message : string)
    (member : option Member) : M Profile :=
  let member := default (user interaction) member in
  profiles ← get_profiles env (m_id member);
  match profiles with
  | [p] => ret p
  | _ =>
      send_view interaction message profiles;;
      let choice := head (view_values env) in
      match choice with
      | Some c =>
          match find (fun p => p_id p =? c) profiles with
          | Some p => ret p
          | None => raise NoChoice
          end
      | None => raise NoChoice
      end
  end.

(** [await self.bot.prompt(interaction, text)] *)
Definition prompt (env : Env) (text : string) : M bool :=
  send (Prompt text);; ret (prompt_answer env).

Section Commands.

Variable emojis : Emojis.
Variable env : Env.

Definition with_profile (nick : Nickname) (p : Profile) : Nickname :=
  {| n_interaction := n_interaction nick; n_profile := Some p;
     n_member := n_member nick; n_guild := n_guild nick |}.

(** The [nickname] command from the line after [nick] is built.  Outside a
    guild [interaction.guild.me] is an [AttributeError]; inside one the
    author is a [discord.Member], so the role test is the comparison of the
    top roles. *)
Definition nickname_body (interaction : Interaction) (nick : Nickname) : M unit :=
  b ← exists_ nick;
  if (b : bool) then
    (c ← prompt env "This will remove your SRs in your nickname.";
     if (c : bool) then
       try_except (set_or_remove emojis env nick None true) is_Exception
         (fun e => send (FollowupSendExn e))
     else ret tt)
  else
    (c ← prompt env "This will display your SRs in your nickname.";
     if negb c then ret tt
     else
       match guild interaction with
       | None => raise AttributeError
       | Some _ =>
           if top_role_lt env then
             send (FollowupSend "This server's owner needs to move the `OverBot` role higher, so I will be able to update your nickname. If you are this server's owner, there's no way for me to change your nickname, sorry!" false)
           else
             (profile ← select_profile env interaction
                          "Select a profile to use for the nickname SRs." None;
              let profile := compute_data env profile in
              if is_private profile then send (FollowupSendPrivateEmbed (p_id profile))
              else
                let nick := with_profile nick profile in
                try_except (set_or_remove emojis env nick (Some (p_id profile)) false)
                  is_Exception (fun e => send (FollowupSendExn e)))
       end).

(** The [nickname] command: [Nickname(interaction, bot=self.bot)] passes the
    keyword [bot]. *)
Definition nickname_command (interaction : Interaction) : M unit :=
  send Defer;; mark_done;;
  nick ← Nickname_init interaction ["bot"%string] None;
  nickname_body interaction nick.

(** [SELECT * FROM nickname WHERE profile_id = $1;] with [fetchrow]: whether
    some row carries the profile. *)
Definition fetchrow_by_profile (pid : Z) : M bool :=
  fun w =>
    (Ok (bool_decide (Exists (fun kv => profile_id kv.2 = Some pid)
                        (map_to_list (nickname (db w))))), w).

(** The nickname hook of the [ratings] command (after [embed_ratings]). *)
Definition ratings_nickname_hook (interaction : Interaction) (member : Member)
    (profile : Profile) : M unit :=
  flag ← fetchrow_by_profile (p_id profile);
  if flag && (m_id member =? m_id (user interaction)) then
    (nick ← Nickname_init interaction ["bot"%string; "profile"%string] (Some profile);
     update emojis env nick)
  else ret tt.

End Commands.

(** ** Sample data *)

Definition demo_emojis : Emojis :=
  {| u_tank := [128737%N]; u_offense := [9876%N]; u_support := [128137%N] |}.

Definition huge_rating : Z := 10 ^ 30.

(** ** Spec-side vocabulary for the encoder *)

(** The spec's [truncate(s, n)]: the first [n] characters, none when [n] is
    zero or negative. *)
Definition truncate (s : str) (n : Z) : str := take (Z.to_nat (Z.max 0 n)) s.

(** The spec's pieces separated by ['/']. *)
Fixpoint join_slash (parts : list str) : str :=
  match parts with
  | [] => []
  | [p] => p
  | p :: ps => p ++ lit "/" ++ join_slash ps
  end.

(** The spec's canonical role order. *)
Definition canonical_roles : list string :=
  ["tank"%string; "offense"%string; "support"%string].

(** The roles present in a rating map, in the spec's canonical order. *)
Definition canonical_items (items : list (string * Z)) : list (string * Z) :=
  omap (fun role => v ← (list_to_map items : gmap string Z) !! role; Some (role, v))
    canonical_roles.

(** The part of an encoded name before the separating space and the suffix. *)
Definition base_portion (result sfx : str) : str :=
  take (length result - length sfx - 1) result.

Section EncoderSpec.

Variable emojis : Emojis.

(** One [<role-glyph><rating>] piece. *)
Definition entry (kv : string * Z) : str :=
  format_opt (ROLES emojis !! kv.1) ++ str_of_int kv.2.

(** The suffix of the spec: the roles present, in canonical order. *)
Definition canonical_suffix (items : list (string * Z)) : str :=
  lit "[" ++ join_slash (map entry (canonical_items items)) ++ lit "]".

End EncoderSpec.

(** ** Vocabulary for the operations *)

(** An edit that was applied or that failed with an HTTP error, the failures
    [set_or_remove] handles itself. *)
Definition recoverable (o : option exn) : bool :=
  match o with
  | None => true
  | Some e => is_HTTPException e
  end.

(** The [nickname] table after an operation on the account [id]: as it was,
    or without the row of [id]. *)
Definition kept_or_removed (id : Z) (w w' : World) : Prop :=
  nickname (db w') = nickname (db w)
  \/ nickname (db w') = delete id (nickname (db w)).

(** ** More sample data *)

Definition demo_env (o : option exn) : Env :=
  {| edit_raises := o; prompt_answer := true; view_values := [];
     profiles_limit := 5; top_role_lt := false;
     fetched := fun _ => {| d_private := false;
                            d_ratings := Some [("tank"%string, 1000)] |} |}.

Definition demo_member : Member := {| m_id := 7; m_name := lit "Alice" |}.

Definition demo_interaction : Interaction :=
  {| user := demo_member; guild := Some 1 |}.

Definition demo_profile : Profile :=
  {| p_id := 3; p_platform := "pc"; p_username := lit "Alice#1234";
     p_data := Some {| d_private := false;
                       d_ratings := Some [("tank"%string, 1000)] |} |}.

Definition demo_nick : Nickname :=
  {| n_interaction := demo_interaction; n_profile := Some demo_profile;
     n_member := demo_member; n_guild := Some 1 |}.

(** The object the [nickname] command unbinds on: built without a profile. *)
Definition demo_nick_without_profile : Nickname :=
  {| n_interaction := demo_interaction; n_profile := None;
     n_member := demo_member; n_guild := Some 1 |}.

Definition demo_db (t : gmap Z nickname_row) : DB :=
  {| nickname := t;
     profile := [ {| pr_id := 3; pr_member_id := 7; pr_platform := "pc";
                     pr_username := lit "Alice#1234" |};
                  {| pr_id := 4; pr_member_id := 7; pr_platform := "xbox";
                     pr_username := lit "Alice" |} ];
     member := {[ 7 ]};
     rating := [] |}.

Definition demo_world (t : gmap Z nickname_row) : World :=
  {| db := demo_db t; nicks := ∅; outbox := []; response_done := true |}.

Definition demo_row : nickname_row := {| server_id := 1; profile_id := Some 3 |}.

Definition demo_single_db : DB :=
  {| nickname := ∅;
     profile := [ {| pr_id := 3; pr_member_id := 7; pr_platform := "pc";
                     pr_username := lit "Alice#1234" |} ];
     member := {[ 7 ]};
     rating := [] |}.

Definition demo_single_world : World :=
  {| db := demo_single_db; nicks := ∅; outbox := []; response_done := true |}.

(** The message of the [nickname] command when the role of the bot is too
    low. *)
Definition role_too_low_message : string :=
  "This server's owner needs to move the `OverBot` role higher, so I will be able to update your nickname. If you are this server's owner, there's no way for me to change your nickname, sorry!".

(** An environment for the [nickname] command: the answer to the prompt,
    whether the role of the bot is too low, the privacy of the profiles and
    the outcome of the edit. *)
Definition demo_command_env (answer role_lt private : bool) (o : option exn) : Env :=
  {| edit_raises := o; prompt_answer := answer; view_values := [];
     profiles_limit := 5; top_role_lt := role_lt;
     fetched := fun _ => {| d_private := private;
                            d_ratings := Some [("tank"%string, 1000)] |} |}.

(** An environment in which the user picks the value [c] in the menu. *)
Definition demo_choice_env (c : Z) : Env :=
  {| edit_raises := None; prompt_answer := true; view_values := [c];
     profiles_limit := 5; top_role_lt := false;
     fetched := fun _ => {| d_private := false;
                            d_ratings := Some [("tank"%string, 1000)] |} |}.

(** The candidates of a selection: the records [get_profiles] fetches for
    the member the selection is about. *)
Definition candidates (env : Env) (interaction : Interaction) (member : option Member)
    (w : World) : list profile_row :=
  fetch_profiles (db w) (m_id (default (user interaction) member)) (profiles_limit env).

(** ** [cogs/stats.py] and [classes/converters.py]: argument converters *)

(** What a converter gives back: the converted value, or
    [commands.BadArgument] with its message. *)
Inductive converted (A : Type) :=
| Converted (a : A)
| BadArgument (message : str).
Arguments Converted {A} a.
Arguments BadArgument {A} message.

(** Lower case on the ASCII range, where [str.lower] only moves the letters
    [A] to [Z]. *)
Definition ascii_lower_char (c : N) : N :=
  if ((65 <=? c) && (c <=? 90))%N then (c + 32)%N else c.

Definition ascii_lower (s : str) : str := map ascii_lower_char s.

Definition is_ascii (s : str) : Prop := Forall (fun c => (c < 128)%N) s.

(** The dict literal of [valid_platform], as its items. *)
Definition valid_items : list (str * str) :=
  [ (lit "pc", lit "pc");
    (lit "bnet", lit "pc");
    (lit "xbl", lit "xbl");
    (lit "xbox", lit "xbl");
    (lit "ps", lit "psn");
    (lit "psn", lit "psn");
    (lit "ps4", lit "psn");
    (lit "play", lit "psn");
    (lit "playstation", lit "psn");
    (lit "nsw", lit "nintendo-switch");
    (lit "switch", lit "nintendo-switch");
    (lit "nintendo-switch", lit "nintendo-switch") ].

Definition valid : gmap str str := list_to_map valid_items.

(** The dict literal of [Hero.convert]; the fourth letter of the last key is
    U+00FA. *)
Definition aliases_items : list (str * str) :=
  [ (lit "soldier", lit "soldier76");
    (lit "soldier-76", lit "soldier76");
    (lit "wreckingball", lit "wreckingBall");
    (lit "dva", lit "dVa");
    (lit "d.va", lit "dVa");
    (lit "l" ++ [250%N] ++ lit "cio", lit "lucio") ].

Definition aliases : gmap str str := list_to_map aliases_items.

Section Converters.

(** [str.lower] of the Python runtime. *)
Variable lower : str -> str.

Definition valid_platform (argument : str) : converted str :=
  match valid !! lower argument with
  | Some platform => Converted platform
  | None => BadArgument (lit "Unknown platform.")
  end.

(** [ctx.bot.heroes]: a dict whose values may be [None]. *)
Variable hero_info : Type.
Variable heroes : gmap str (option hero_info).

(** [d.get(k)] on a dict whose values may be [None]. *)
Definition dict_get (d : gmap str (option hero_info)) (k : str) : option hero_info :=
  match d !! k with
  | Some v => v
  | None => None
  end.

Definition Hero_convert (argument : str) : converted str :=
  let hero_ := lower argument in
  let hero := aliases !! hero_ in
  match hero with
  | None =>
      match dict_get heroes hero_ with
      | None => BadArgument (lit "Unknown hero: **" ++ argument ++ lit "**.")
      | Some _ => Converted hero_
      end
  | Some hero => Converted hero
  end.

End Converters.

(** ** [cogs/member.py]: the embed colour of a member *)

(** What the [color] command sends. *)
Inductive member_output :=
| CtxSend (content : string)
| CtxSendEmbed (color : Z) (description : string).

(** The part of the bot the [color] command works on: the column
    [embed_color] of the table [member] by member id ([None] is NULL), the
    dict [bot.embed_colors], and what was sent. *)
Record MemberBot := {
  embed_color : gmap Z (option Z);
  embed_colors : gmap Z Z;
  ctx_sent : list member_output;
}.

(** [UPDATE member SET embed_color = $1 WHERE id = $2;]: only an existing
    row is changed. *)
Definition update_embed_color (id : Z) (c : option Z) (t : gmap Z (option Z)) :
    gmap Z (option Z) :=
  alter (fun _ => c) id t.

(** The [color] command for the author [author]; [color] is the converted
    argument, [None] when it was left blank. *)
Definition color_command (author : Z) (color : option Z) (b : MemberBot) : MemberBot :=
  match color with
  | None =>
      let t := update_embed_color author None (embed_color b) in
      match embed_colors b !! author with
      | None =>
          {| embed_color := t; embed_colors := embed_colors b;
             ctx_sent := ctx_sent b ++ [CtxSend "Color already set to default."] |}
      | Some _ =>
          {| embed_color := t; embed_colors := delete author (embed_colors b);
             ctx_sent := ctx_sent b ++ [CtxSend "Color successfully reset."] |}
      end
  | Some c =>
      {| embed_color := update_embed_color author (Some c) (embed_color b);
         embed_colors := <[author := c]> (embed_colors b);
         ctx_sent := ctx_sent b ++ [CtxSendEmbed c "Color successfully set."] |}
  end.

(** The dict and the table agree: a member has an entry in the dict exactly
    when its row holds a colour, and it is that colour. *)
Definition colors_agree (b : MemberBot) : Prop :=
  forall id : Z,
    embed_colors b !! id
    = match embed_color b !! id with
      | Some c => c
      | None => None
      end.

(** A bot with two members: the first has the default colour, the second a
    red one. *)
Definition demo_bot : MemberBot :=
  {| embed_color := {[ 1 := None; 2 := Some 16711680 ]};
     embed_colors := {[ 2 := 16711680 ]};
     ctx_sent := [] |}.

(** ** [cogs/overwatch.py]: the news pages *)

Record NewsEmbed := {
  e_title : str;
  e_url : str;
  e_author : str;
  e_image : str;
  e_footer : str;
}.

(** [amount or 4], then [abs]: what the [news] command asks the scraper
    for. *)
Definition news_amount (amount : option Z) : Z :=
  let amount :=
    match amount with
    | None => 4
    | Some a => if a =? 0 then 4 else a
    end in
  Z.abs amount.

(** The loop of the [news] command over
    [enumerate(zip(titles, links, imgs, dates), start=i)]; [total] is
    [len(titles)]. *)
Fixpoint news_loop (total : Z) (i : Z) (titles links imgs dates : list str) :
    list NewsEmbed :=
  match titles, links, imgs, dates with
  | title :: titles, link :: links, img :: imgs, date :: dates =>
      {| e_title := title;
         e_url := link;
         e_author := lit "Blizzard Entertainment";
         e_image := lit "https:" ++ img;
         e_footer := lit "News " ++ str_of_int i ++ lit "/" ++ str_of_int total
                     ++ lit " " ++ [8226%N] ++ lit " " ++ date |}
      :: news_loop total (i + 1) titles links imgs dates
  | _, _, _, _ => []
  end.

Definition news_pages (titles links imgs dates : list str) : list NewsEmbed :=
  news_loop (len titles) 1 titles links imgs dates.

(** ** Python slices *)

Lemma slice_to_nonneg {A} (s : list A) (x : Z) :
  0 <= x -> slice_to s x = take (Z.to_nat x) s.
Proof.
  intros Hx. unfold slice_to.
  destruct (x <? 0) eqn:E; [apply Z.ltb_lt in E; lia | reflexivity].
Qed.

Lemma len_slice_to_le {A} (s : list A) (x : Z) :
  0 <= x -> len (slice_to s x) <= x.
Proof.
  intros Hx. rewrite slice_to_nonneg by done.
  unfold len. rewrite length_take. lia.
Qed.

Lemma len_slice_to_min {A} (s : list A) (x : Z) :
  0 <= x -> len (slice_to s x) = Z.min (len s) x.
Proof.
  intros Hx. rewrite slice_to_nonneg by done.
  unfold len. rewrite length_take. lia.
Qed.

Lemma slice_to_drop_last {A} (s : list A) (c : A) :
  slice_to (s ++ [c]) (-1) = s.
Proof.
  unfold slice_to, len. simpl (-1 <? 0).
  rewrite length_app. simpl length.
  replace (Z.to_nat (Z.of_nat (length s + 1) + -1)) with (length s) by lia.
  by rewrite take_app_length.
Qed.

Lemma len_app {A} (s t : list A) : len (s ++ t) = len s + len t.
Proof. unfold len. rewrite length_app. lia. Qed.

Lemma len_unranked : len (lit " [Unranked]") = 11.
Proof. reflexivity. Qed.

Lemma len_space : len (lit " ") = 1.
Proof. reflexivity. Qed.

(** ** The encoder *)

Section EncoderFacts.

Variable emojis : Emojis.

Lemma suffix_loop_acc (items : list (string * Z)) (acc : str) :
  fold_left
    (fun tmp kv =>
       tmp ++ (format_opt (ROLES emojis !! kv.1) ++ str_of_int kv.2 ++ lit "/"))
    items acc
  = acc ++ suffix_loop emojis items.
Proof.
  unfold suffix_loop. revert acc.
  induction items as [|kv items IH]; intros acc; simpl.
  - by rewrite app_nil_r.
  - rewrite IH. rewrite (IH (format_opt _ ++ _)).
    symmetry. apply app_assoc.
Qed.

Lemma suffix_loop_cons (kv : string * Z) (items : list (string * Z)) :
  suffix_loop emojis (kv :: items)
  = entry emojis kv ++ lit "/" ++ suffix_loop emojis items.
Proof.
  unfold suffix_loop at 1. simpl fold_left.
  rewrite suffix_loop_acc. unfold entry.
  by rewrite <- !app_assoc.
Qed.

(** The loop leaves the joined pieces followed by one slash. *)
Lemma suffix_loop_join (kv : string * Z) (items : list (string * Z)) :
  suffix_loop emojis (kv :: items)
  = join_slash (map (entry emojis) (kv :: items)) ++ lit "/".
Proof.
  revert kv. induction items as [|kv' items IH]; intros kv.
  - rewrite suffix_loop_cons. reflexivity.
  - rewrite suffix_loop_cons, IH.
    change (map (entry emojis) (kv :: kv' :: items))
      with (entry emojis kv :: map (entry emojis) (kv' :: items)).
    change (join_slash (entry emojis kv :: map (entry emojis) (kv' :: items)))
      with (entry emojis kv ++ lit "/" ++ join_slash (map (entry emojis) (kv' :: items))).
    by rewrite <- !app_assoc.
Qed.

Lemma suffix_join (items : list (string * Z)) :
  items <> [] ->
  suffix emojis items = lit "[" ++ join_slash (map (entry emojis) items) ++ lit "]".
Proof.
  destruct items as [|kv items]; [done|]. intros _.
  unfold suffix. rewrite suffix_loop_join.
  change (lit "/") with [47%N].
  by rewrite slice_to_drop_last.
Qed.

Lemma generate_with_ranked (L : Z) (name : str) (items : list (string * Z)) :
  items <> [] ->
  generate_with emojis L name (Some items)
  = slice_to name (L - len (suffix emojis items) - 1) ++ lit " " ++ suffix emojis items.
Proof. destruct items; [done|]. reflexivity. Qed.

Lemma generate_with_unranked (L : Z) (name : str) (ratings : ratings_t) :
  truthy ratings = false ->
  generate_with emojis L name ratings = slice_to name 21 ++ lit " [Unranked]".
Proof. intros H. unfold generate_with. by rewrite H. Qed.

End EncoderFacts.

Lemma roles_glyphs (emojis : Emojis) :
  ROLES emojis !! "tank"%string = Some (u_tank emojis)
  /\ ROLES emojis !! "offense"%string = Some (u_offense emojis)
  /\ ROLES emojis !! "support"%string = Some (u_support emojis).
Proof. unfold ROLES. repeat split; by simplify_map_eq. Qed.

Lemma truncate_slice_to (s : str) (x : Z) :
  0 <= x -> truncate s x = slice_to s x.
Proof.
  intros Hx. rewrite slice_to_nonneg by done.
  unfold truncate. by rewrite Z.max_r.
Qed.

Lemma _generate_returns (emojis : Emojis) (self : Nickname) (p : Profile) (w : World) :
  n_profile self = Some p ->
  _generate emojis self w
  = (Ok (generate_with emojis MAX_NICKNAME_LENGTH (m_name (n_member self))
           (resolve_ratings p)), w).
Proof. intros H. unfold _generate. by rewrite H. Qed.

(** The examples of the specification, with one-character glyphs. *)
Example generate_alice :
  generate_with demo_emojis MAX_NICKNAME_LENGTH (lit "Alice") (Some [("tank"%string, 1000)])
  = lit "Alice [" ++ u_tank demo_emojis ++ lit "1000]".
Proof. reflexivity. Qed.

Example generate_bob_suffix :
  suffix demo_emojis [("tank"%string, 1000); ("support"%string, 2500)]
  = lit "[" ++ u_tank demo_emojis ++ lit "1000/" ++ u_support demo_emojis ++ lit "2500]".
Proof. reflexivity. Qed.

Example generate_fifty_letters :
  len (base_portion
         (generate_with demo_emojis 10 (repeat 65%N 50) (Some [("tank"%string, 1)]))
         (suffix demo_emojis [("tank"%string, 1)]))
  = Z.max 0 (10 - len (suffix demo_emojis [("tank"%string, 1)]) - 1).
Proof. reflexivity. Qed.

(** ** Properties of the encoder *)

(** C1, as the code has it: for every base name and every length [L], the
    encoded name has at most [L] characters when the rating mapping is not
    empty and its suffix fits in [L] together with the separating space, and
    when the mapping is empty and [L] is at least 32 or the name with the
    eleven characters of " [Unranked]" fits in [L] (the unranked branch keeps
    up to 21 characters of the name, that is 32 - 11, whatever [L] is); and
    [_generate] returns normally, leaving the world alone, whatever the
    length of the name. *)
Theorem generate_length_bound (emojis : Emojis) (L : Z) (name : str) (ratings : ratings_t) :
  (truthy ratings = true -> len (suffix emojis (default [] ratings)) + 1 <= L) ->
  (truthy ratings = false -> MAX_NICKNAME_LENGTH <= L \/ len name + 11 <= L) ->
  len (generate_with emojis L name ratings) <= L
  /\ forall (self : Nickname) (p : Profile) (w : World),
       n_profile self = Some p ->
       m_name (n_member self) = name ->
       resolve_ratings p = ratings ->
       _generate emojis self w
       = (Ok (generate_with emojis MAX_NICKNAME_LENGTH name ratings), w).
Proof.
  intros Hranked Hunranked. split.
  - destruct (truthy ratings) eqn:Ht.
    + specialize (Hranked eq_refl).
      destruct ratings as [[|kv items]|]; try done.
      rewrite generate_with_ranked by done. simpl default in Hranked.
      rewrite !len_app, len_space.
      pose proof (len_slice_to_le name (L - len (suffix emojis (kv :: items)) - 1)).
      lia.
    + specialize (Hunranked eq_refl).
      rewrite generate_with_unranked by done.
      rewrite len_app, len_unranked.
      rewrite len_slice_to_min by lia.
      unfold MAX_NICKNAME_LENGTH in Hunranked. lia.
  - intros self p w Hp Hn Hr. rewrite (_generate_returns emojis self p w Hp).
    by rewrite Hn, Hr.
Qed.

Lemma generate_length_bound_witness :
  len (generate_with demo_emojis 11 (lit "Alice") (Some [("tank"%string, 1000)])) <= 11
  /\ len (generate_with demo_emojis 14 (lit "Bob") None) <= 14.
Proof.
  split.
  - apply (generate_length_bound demo_emojis 11 (lit "Alice")
             (Some [("tank"%string, 1000)])).
    + intros _. vm_compute. discriminate.
    + intros H. discriminate H.
  - apply (generate_length_bound demo_emojis 14 (lit "Bob") None).
    + intros H. discriminate H.
    + intros _. right. vm_compute. discriminate.
Defined.

(** C1 fails as stated: with the constant 32 a thirty-one digit rating gives a
    suffix that alone is longer than 32, and the five-letter name keeps two
    letters (37 characters in all); with a length of 11, the least the claim
    allows, the unranked branch does not cut the one-letter name and adds its
    eleven characters (12 characters in all). *)
Lemma generate_length_bound_fails :
  (11 <= 32
   /\ len (generate_with demo_emojis 32 (lit "Bobby") (Some [("tank"%string, huge_rating)])) = 37
   /\ ~ len (generate_with demo_emojis 32 (lit "Bobby") (Some [("tank"%string, huge_rating)])) <= 32)
  /\ (11 <= 11
      /\ ~ len (generate_with demo_emojis 11 (lit "a") None) <= 11).
Proof.
  repeat split; try lia; try (vm_compute; congruence).
Qed.

(** C2, as the code has it: for every non-empty rating mapping whose suffix
    leaves room ([x = maxLength - len(suffix) - 1] is not negative), the
    base-name portion of the result is the name cut to [x] characters, so it
    has [min(len(name), x)] characters and none when [x] is zero. *)
Theorem base_name_truncation (emojis : Emojis) (L : Z) (name : str)
    (items : list (string * Z)) :
  items <> [] ->
  0 <= L - len (suffix emojis items) - 1 ->
  generate_with emojis L name (Some items)
  = truncate name (L - len (suffix emojis items) - 1) ++ lit " " ++ suffix emojis items
  /\ base_portion (generate_with emojis L name (Some items)) (suffix emojis items)
     = truncate name (L - len (suffix emojis items) - 1)
  /\ len (truncate name (L - len (suffix emojis items) - 1))
     = Z.min (len name) (L - len (suffix emojis items) - 1)
  /\ (L - len (suffix emojis items) - 1 = 0 ->
      base_portion (generate_with emojis L name (Some items)) (suffix emojis items) = []).
Proof.
  intros Hne Hx.
  assert (Hgen : generate_with emojis L name (Some items)
                 = truncate name (L - len (suffix emojis items) - 1)
                   ++ lit " " ++ suffix emojis items).
  { rewrite generate_with_ranked by done. by rewrite truncate_slice_to. }
  assert (Hbase : base_portion (generate_with emojis L name (Some items))
                    (suffix emojis items)
                  = truncate name (L - len (suffix emojis items) - 1)).
  { rewrite Hgen. unfold base_portion.
    rewrite !length_app. change (length (lit " ")) with 1%nat.
    match goal with
    | |- take ?n _ = ?t => replace n with (length t) by lia
    end.
    by rewrite take_app_length. }
  repeat split; try done.
  - rewrite truncate_slice_to by done. by apply len_slice_to_min.
  - intros H0. rewrite Hbase, H0. reflexivity.
Qed.

Lemma base_name_truncation_witness :
  generate_with demo_emojis 10 (lit "AAAAAAAAAAAA") (Some [("tank"%string, 1)])
  = lit "AAAAA" ++ lit " " ++ suffix demo_emojis [("tank"%string, 1)].
Proof.
  refine (eq_trans
    (proj1 (base_name_truncation demo_emojis 10 (lit "AAAAAAAAAAAA")
              [("tank"%string, 1)] _ _)) _).
  - discriminate.
  - vm_compute. discriminate.
  - reflexivity.
Defined.

(** C2 fails as stated: with the thirty-one digit rating the room is negative
    ([32 - 34 - 1 = -3]) and the slice [name[:-3]] keeps the first two letters
    of [Bobby] rather than none. *)
Lemma base_name_not_emptied :
  32 - len (suffix demo_emojis [("tank"%string, huge_rating)]) - 1 = -3
  /\ base_portion
       (generate_with demo_emojis 32 (lit "Bobby") (Some [("tank"%string, huge_rating)]))
       (suffix demo_emojis [("tank"%string, huge_rating)])
     = lit "Bo"
  /\ len (base_portion
            (generate_with demo_emojis 32 (lit "Bobby")
               (Some [("tank"%string, huge_rating)]))
            (suffix demo_emojis [("tank"%string, huge_rating)]))
     <> Z.max 0 (32 - len (suffix demo_emojis [("tank"%string, huge_rating)]) - 1).
Proof.
  repeat split; try (vm_compute; congruence).
Qed.

(** C5, as the code has it: for a rating mapping with no entries ([None] or
    the empty dict) and the maximum length 32 of the code, the result is the
    name cut to [32 - len(" [Unranked]")] = 21 characters followed by
    [" [Unranked]"]; and whatever the maximum length, the result ends with
    ["[Unranked]"]. *)
Theorem unranked_nickname (emojis : Emojis) (name : str) (ratings : ratings_t) :
  truthy ratings = false ->
  generate_with emojis MAX_NICKNAME_LENGTH name ratings
  = truncate name (MAX_NICKNAME_LENGTH - len (lit " [Unranked]")) ++ lit " [Unranked]"
  /\ forall L : Z,
       exists pre : str, generate_with emojis L name ratings = pre ++ lit "[Unranked]".
Proof.
  intros Ht. split.
  - rewrite generate_with_unranked by done.
    rewrite truncate_slice_to; [reflexivity|].
    rewrite len_unranked. unfold MAX_NICKNAME_LENGTH. lia.
  - intros L. exists (slice_to name 21 ++ lit " ").
    rewrite generate_with_unranked by done.
    rewrite <- app_assoc. reflexivity.
Qed.

Lemma unranked_nickname_witness :
  generate_with demo_emojis MAX_NICKNAME_LENGTH (lit "Alice") (Some [])
  = truncate (lit "Alice") (MAX_NICKNAME_LENGTH - len (lit " [Unranked]"))
    ++ lit " [Unranked]".
Proof.
  apply (unranked_nickname demo_emojis (lit "Alice") (Some [])).
  reflexivity.
Defined.

(** C5 fails as stated for other lengths: with a maximum of 20 the formula of
    the claim keeps 9 letters of a twelve-letter name, the code keeps all
    twelve (its unranked branch cuts at 21 whatever the maximum). *)
Lemma unranked_nickname_ignores_length :
  generate_with demo_emojis 20 (lit "abcdefghijkl") None
  = lit "abcdefghijkl [Unranked]"
  /\ truncate (lit "abcdefghijkl") (20 - len (lit " [Unranked]")) ++ lit " [Unranked]"
     = lit "abcdefghi [Unranked]"
  /\ generate_with demo_emojis 20 (lit "abcdefghijkl") None
     <> truncate (lit "abcdefghijkl") (20 - len (lit " [Unranked]")) ++ lit " [Unranked]".
Proof.
  repeat split; try (vm_compute; congruence).
Qed.

(** C6, as the code has it: for every non-empty rating mapping the result is
    the sliced base name, one space and the suffix; the suffix is the pieces
    [<role-glyph><rating>] of the roles present, separated by ['/'] and
    wrapped in brackets, in the iteration order of the mapping; the three
    roles have their glyphs; and when the mapping already is in the order
    tank, offense, support, the suffix is the canonical one. *)
Theorem suffix_in_mapping_order (emojis : Emojis) (L : Z) (name : str)
    (items : list (string * Z)) :
  items <> [] ->
  generate_with emojis L name (Some items)
  = slice_to name (L - len (suffix emojis items) - 1) ++ lit " " ++ suffix emojis items
  /\ suffix emojis items = lit "[" ++ join_slash (map (entry emojis) items) ++ lit "]"
  /\ (ROLES emojis !! "tank"%string = Some (u_tank emojis)
      /\ ROLES emojis !! "offense"%string = Some (u_offense emojis)
      /\ ROLES emojis !! "support"%string = Some (u_support emojis))
  /\ (canonical_items items = items ->
      suffix emojis items = canonical_suffix emojis items).
Proof.
  intros Hne. split; [by apply generate_with_ranked|].
  split; [by apply suffix_join|].
  split; [apply roles_glyphs|].
  intros Hc. unfold canonical_suffix. rewrite Hc. by apply suffix_join.
Qed.

Lemma suffix_in_mapping_order_witness :
  generate_with demo_emojis 32 (lit "Bob") (Some [("tank"%string, 1000); ("support"%string, 2500)])
  = lit "Bob [" ++ u_tank demo_emojis ++ lit "1000/" ++ u_support demo_emojis ++ lit "2500]"
  /\ suffix demo_emojis [("tank"%string, 1000); ("support"%string, 2500)]
     = canonical_suffix demo_emojis [("tank"%string, 1000); ("support"%string, 2500)].
Proof.
  pose proof (suffix_in_mapping_order demo_emojis 32 (lit "Bob")
                [("tank"%string, 1000); ("support"%string, 2500)]) as H.
  destruct H as (Hgen & _ & _ & Hcan); [discriminate|].
  split.
  - rewrite Hgen. reflexivity.
  - apply Hcan. reflexivity.
Defined.

(** C6 fails as stated: a mapping that holds support before tank is encoded
    support first, not in the canonical order. *)
Lemma suffix_not_canonical_order :
  suffix demo_emojis [("support"%string, 2500); ("tank"%string, 1000)]
  = lit "[" ++ u_support demo_emojis ++ lit "2500/" ++ u_tank demo_emojis ++ lit "1000]"
  /\ canonical_suffix demo_emojis [("support"%string, 2500); ("tank"%string, 1000)]
     = lit "[" ++ u_tank demo_emojis ++ lit "1000/" ++ u_support demo_emojis ++ lit "2500]"
  /\ suffix demo_emojis [("support"%string, 2500); ("tank"%string, 1000)]
     <> canonical_suffix demo_emojis [("support"%string, 2500); ("tank"%string, 1000)].
Proof.
  repeat split; try (vm_compute; congruence).
Qed.

(** ** Running the operations *)

Ltac unfold_m :=
  unfold mbind, M_bind, bind, mret, M_ret, ret, raise, try_except, send, set_db,
    mark_done in *.

Section Runs.

Variable emojis : Emojis.
Variable env : Env.

Lemma member_edit_raises (self : Nickname) (nick : option str) (g : Z) (e : exn) (w : World) :
  n_guild self = Some g ->
  edit_raises env = Some e ->
  member_edit env self nick w = (Raise e, w).
Proof. intros Hg He. unfold member_edit. rewrite Hg, He. reflexivity. Qed.

Lemma member_edit_applied (self : Nickname) (nick : option str) (g : Z) (w : World) :
  n_guild self = Some g ->
  edit_raises env = None ->
  member_edit env self nick w
  = (Ok tt,
     {| db := db w;
        nicks := match nick with
                 | Some s => <[(g, m_id (n_member self)) := s]> (nicks w)
                 | None => delete (g, m_id (n_member self)) (nicks w)
                 end;
        outbox := outbox w; response_done := response_done w |}).
Proof. intros Hg He. unfold member_edit. rewrite Hg, He. reflexivity. Qed.

(** Whatever [member.edit] does, the database is left as it was, and nothing
    is sent. *)
Lemma member_edit_frame (self : Nickname) (nick : option str) (w : World) :
  db (member_edit env self nick w).2 = db w
  /\ outbox (member_edit env self nick w).2 = outbox w
  /\ response_done (member_edit env self nick w).2 = response_done w.
Proof.
  unfold member_edit.
  destruct (n_guild self); [destruct (edit_raises env)|]; done.
Qed.

(** Unbinding when the edit is applied or fails with an HTTP error. *)
Lemma set_or_remove_remove (self : Nickname) (pid : option Z) (g : Z) (w : World) :
  n_guild self = Some g ->
  recoverable (edit_raises env) = true ->
  (set_or_remove emojis env self pid true w).1 = Ok tt
  /\ nickname (db (set_or_remove emojis env self pid true w).2)
     = delete (m_id (n_member self)) (nickname (db w))
  /\ profile (db (set_or_remove emojis env self pid true w).2) = profile (db w)
  /\ rating (db (set_or_remove emojis env self pid true w).2) = rating (db w).
Proof.
  intros Hg Hrec. unfold set_or_remove. simpl negb. cbv iota.
  unfold_m. unfold execute_delete, member_edit. rewrite Hg.
  destruct (edit_raises env) as [e|]; simpl in *.
  - rewrite Hrec. simpl. done.
  - done.
Qed.

(** Unbinding when the edit raises anything else: the exception leaves
    [set_or_remove] before the DELETE. *)
Lemma set_or_remove_remove_raises (self : Nickname) (pid : option Z) (g : Z) (e : exn)
    (w : World) :
  n_guild self = Some g ->
  edit_raises env = Some e ->
  is_HTTPException e = false ->
  set_or_remove emojis env self pid true w = (Raise e, w).
Proof.
  intros Hg He Hno. unfold set_or_remove. simpl negb. cbv iota.
  unfold_m. rewrite (member_edit_raises self None g e w Hg He).
  by rewrite Hno.
Qed.

End Runs.

Section Binding.

Variable emojis : Emojis.
Variable env : Env.

(** Binding when the edit fails with an HTTP error. *)
Lemma set_or_remove_set_http (self : Nickname) (p : Profile) (g : Z) (e : exn)
    (pid : option Z) (w : World) :
  n_profile self = Some p ->
  n_guild self = Some g ->
  nickname (db w) !! m_id (n_member self) = None ->
  edit_raises env = Some e ->
  is_HTTPException e = true ->
  set_or_remove emojis env self pid false w
  = (Ok tt,
     {| db := with_nickname (db w)
                (<[m_id (n_member self) := {| server_id := g; profile_id := pid |}]>
                   (nickname (db w)));
        nicks := nicks w;
        outbox := outbox w
                  ++ [FollowupSend "Something bad happened while updating your nickname." true;
                      FollowupSend "Nickname successfully set." true];
        response_done := response_done w |}).
Proof.
  intros Hp Hg Hrow He Hhttp. unfold set_or_remove. simpl negb. cbv iota.
  unfold_m. rewrite (_generate_returns emojis self p w Hp).
  rewrite (member_edit_raises env self _ g e w Hg He), Hhttp, Hg.
  unfold execute_insert. simpl. rewrite Hrow. unfold_m. simpl.
  by rewrite <- app_assoc.
Qed.

(** Binding when the edit is applied. *)
Lemma set_or_remove_set_ok (self : Nickname) (p : Profile) (g : Z)
    (pid : option Z) (w : World) :
  n_profile self = Some p ->
  n_guild self = Some g ->
  nickname (db w) !! m_id (n_member self) = None ->
  edit_raises env = None ->
  (set_or_remove emojis env self pid false w).1 = Ok tt
  /\ nickname (db (set_or_remove emojis env self pid false w).2)
     = <[m_id (n_member self) := {| server_id := g; profile_id := pid |}]>
         (nickname (db w)).
Proof.
  intros Hp Hg Hrow He. unfold set_or_remove. simpl negb. cbv iota.
  unfold_m. rewrite (_generate_returns emojis self p w Hp).
  rewrite (member_edit_applied env self _ g w Hg He), Hg.
  unfold execute_insert. simpl. rewrite Hrow. unfold_m. simpl. done.
Qed.

(** Modelled key constraint: binding over an existing row changes no row. *)
Lemma set_or_remove_set_bound (self : Nickname) (pid : option Z) (w : World) :
  is_Some (nickname (db w) !! m_id (n_member self)) ->
  nickname (db (set_or_remove emojis env self pid false w).2) = nickname (db w).
Proof.
  intros [row Hrow]. unfold set_or_remove. simpl negb. cbv iota.
  unfold_m. unfold _generate, member_edit, execute_insert. unfold_m.
  destruct (n_profile self); [|done].
  destruct (n_guild self); [|done].
  destruct (edit_raises env) as [e|]; simpl.
  - destruct (is_HTTPException e); simpl; [by rewrite Hrow|done].
  - by rewrite Hrow.
Qed.

End Binding.

(** ** Properties of binding and unbinding *)

(** C3, as the code has it: on any [Nickname] object of the account, with or
    without a profile (the command unbinds on one built without), unbinding
    deletes the row of the account, and only that row, when the platform
    applies the edit and when the edit fails with an HTTP error
    ([discord.HTTPException], [Forbidden] included); so an unbind whose edit
    ends in one of these two ways leaves no row for the account after any
    bind, whatever happened to the edit of the bind; and the bind itself does
    create the row when the account is unbound. *)
Theorem unbind_deletes_binding (emojis : Emojis) (env1 env2 : Env) (self bound : Nickname)
    (g : Z) (pid : option Z) (w : World) :
  n_guild self = Some g ->
  recoverable (edit_raises env2) = true ->
  ((set_or_remove emojis env2 self None true w).1 = Ok tt
   /\ nickname (db (set_or_remove emojis env2 self None true w).2)
      = delete (m_id (n_member self)) (nickname (db w)))
  /\ nickname (db (set_or_remove emojis env2 self None true
                     (set_or_remove emojis env1 bound pid false w).2).2)
     !! m_id (n_member self) = None
  /\ (forall p : Profile,
        n_profile bound = Some p ->
        n_guild bound = Some g ->
        n_member bound = n_member self ->
        nickname (db w) !! m_id (n_member self) = None ->
        recoverable (edit_raises env1) = true ->
        nickname (db (set_or_remove emojis env1 bound pid false w).2)
        !! m_id (n_member self) = Some {| server_id := g; profile_id := pid |}).
Proof.
  intros Hg Hrec. split; [|split].
  - destruct (set_or_remove_remove emojis env2 self None g w Hg Hrec) as (H1 & H2 & _).
    by split.
  - destruct (set_or_remove_remove emojis env2 self None g
                (set_or_remove emojis env1 bound pid false w).2 Hg Hrec) as (_ & H2 & _).
    rewrite H2. apply lookup_delete_eq.
  - intros p Hp Hgb Hm Hrow Hrec1. rewrite <- Hm in *.
    destruct (edit_raises env1) as [e|] eqn:He.
    + rewrite (set_or_remove_set_http emojis env1 bound p g e pid w); try done.
      simpl. apply lookup_insert_eq.
    + destruct (set_or_remove_set_ok emojis env1 bound p g pid w) as [_ H2]; try done.
      rewrite H2. apply lookup_insert_eq.
Qed.

Lemma unbind_deletes_binding_witness :
  nickname (db (set_or_remove demo_emojis (demo_env (Some Forbidden))
                  demo_nick_without_profile None true
                  (set_or_remove demo_emojis (demo_env (Some HTTPException)) demo_nick
                     (Some 3) false (demo_world ∅)).2).2)
  !! 7 = None
  /\ nickname (db (set_or_remove demo_emojis (demo_env (Some HTTPException)) demo_nick
                     (Some 3) false (demo_world ∅)).2)
     !! 7 = Some demo_row.
Proof.
  split.
  - apply (unbind_deletes_binding demo_emojis (demo_env (Some HTTPException))
             (demo_env (Some Forbidden)) demo_nick_without_profile demo_nick 1 (Some 3)
             (demo_world ∅)); reflexivity.
  - apply (proj2 (proj2 (unbind_deletes_binding demo_emojis (demo_env (Some HTTPException))
                           (demo_env (Some Forbidden)) demo_nick_without_profile demo_nick
                           1 (Some 3) (demo_world ∅) eq_refl eq_refl)) demo_profile);
      reflexivity.
Defined.

(** C3 fails as stated: when the edit of the unbind fails with something that
    is no HTTP error (here a lost connection), [set_or_remove] raises before
    its DELETE and the row stays. *)
Lemma unbind_keeps_binding_on_other_error :
  set_or_remove demo_emojis (demo_env (Some OSError)) demo_nick None true
    (demo_world {[ 7 := demo_row ]})
  = (Raise OSError, demo_world {[ 7 := demo_row ]})
  /\ nickname (db (set_or_remove demo_emojis (demo_env (Some OSError)) demo_nick None true
                     (demo_world {[ 7 := demo_row ]})).2)
     !! 7 = Some demo_row.
Proof.
  assert (H : set_or_remove demo_emojis (demo_env (Some OSError)) demo_nick None true
                (demo_world {[ 7 := demo_row ]})
              = (Raise OSError, demo_world {[ 7 := demo_row ]})).
  { by apply (set_or_remove_remove_raises demo_emojis (demo_env (Some OSError))
                demo_nick None 1 OSError). }
  split; [exact H|]. rewrite H. simpl. apply lookup_singleton_eq.
Qed.

(** C4: a bind from the unbound state whose edit fails with an HTTP error
    still inserts the row of the account, and the caller is sent both the
    failure message and the confirmation, in this order. *)
Theorem bind_persists_on_platform_error (emojis : Emojis) (env : Env) (self : Nickname)
    (p : Profile) (g : Z) (e : exn) (pid : option Z) (w : World) :
  n_profile self = Some p ->
  n_guild self = Some g ->
  nickname (db w) !! m_id (n_member self) = None ->
  edit_raises env = Some e ->
  is_HTTPException e = true ->
  set_or_remove emojis env self pid false w
  = (Ok tt,
     {| db := with_nickname (db w)
                (<[m_id (n_member self) := {| server_id := g; profile_id := pid |}]>
                   (nickname (db w)));
        nicks := nicks w;
        outbox := outbox w
                  ++ [FollowupSend "Something bad happened while updating your nickname." true;
                      FollowupSend "Nickname successfully set." true];
        response_done := response_done w |}).
Proof. apply set_or_remove_set_http. Qed.

Lemma bind_persists_on_platform_error_witness :
  nickname (db (set_or_remove demo_emojis (demo_env (Some Forbidden)) demo_nick (Some 3) false
                  (demo_world ∅)).2) !! 7
  = Some demo_row.
Proof.
  rewrite (bind_persists_on_platform_error demo_emojis (demo_env (Some Forbidden))
             demo_nick demo_profile 1 Forbidden (Some 3) (demo_world ∅));
    reflexivity.
Defined.

(** ** Properties of the refresh *)

Section Refresh.

Variable emojis : Emojis.
Variable env : Env.

Lemma exists__spec (self : Nickname) (w : World) :
  exists_ self w
  = (Ok (bool_decide (is_Some (nickname (db w) !! m_id (n_member self)))), w).
Proof. reflexivity. Qed.

Lemma update_unbound (self : Nickname) (w : World) :
  nickname (db w) !! m_id (n_member self) = None ->
  update emojis env self w = (Ok tt, w).
Proof.
  intros Hrow. unfold update. unfold_m. rewrite exists__spec.
  rewrite bool_decide_eq_false_2; [reflexivity|].
  rewrite Hrow. by intros [? ?].
Qed.

Lemma update_bound (self : Nickname) (p : Profile) (w : World) :
  is_Some (nickname (db w) !! m_id (n_member self)) ->
  n_profile self = Some p ->
  update emojis env self w
  = (Ok tt,
     match (member_edit env self
              (Some (generate_with emojis MAX_NICKNAME_LENGTH (m_name (n_member self))
                       (resolve_ratings p))) w).1 with
     | Ok _ => (member_edit env self
                  (Some (generate_with emojis MAX_NICKNAME_LENGTH (m_name (n_member self))
                           (resolve_ratings p))) w).2
     | Raise _ => w
     end).
Proof.
  intros Hrow Hp. unfold update. unfold_m. rewrite exists__spec.
  rewrite bool_decide_eq_true_2 by done.
  change (negb true) with false. cbn beta iota.
  rewrite (_generate_returns emojis self p w Hp).
  unfold member_edit.
  destruct (n_guild self); [destruct (edit_raises env)|]; reflexivity.
Qed.

(** The refresh never touches the database, sends nothing, and changes at
    most the guild nickname of the member. *)
Lemma update_frame (self : Nickname) (w : World) :
  db (update emojis env self w).2 = db w
  /\ outbox (update emojis env self w).2 = outbox w
  /\ response_done (update emojis env self w).2 = response_done w
  /\ (nicks (update emojis env self w).2 = nicks w
      \/ exists (g : Z) (p : Profile),
           n_guild self = Some g /\ n_profile self = Some p
           /\ nicks (update emojis env self w).2
              = <[(g, m_id (n_member self))
                  := generate_with emojis MAX_NICKNAME_LENGTH (m_name (n_member self))
                       (resolve_ratings p)]> (nicks w)).
Proof.
  unfold update. unfold_m. rewrite exists__spec.
  destruct (bool_decide _); simpl; [|by auto].
  unfold _generate. unfold_m.
  destruct (n_profile self) as [p|] eqn:Hp; [|by auto].
  unfold member_edit.
  destruct (n_guild self) as [g|] eqn:Hg; [|by auto].
  destruct (edit_raises env); simpl; [by auto|].
  repeat split; try done. right. by exists g, p.
Qed.

Lemma ratings_nickname_hook_frame (interaction : Interaction) (member : Member)
    (profile : Profile) (w : World) :
  ratings_nickname_hook emojis env interaction member profile w
  = (if bool_decide (Exists (fun kv => profile_id kv.2 = Some (p_id profile))
                       (map_to_list (nickname (db w))))
        && (m_id member =? m_id (user interaction))
     then Raise TypeError else Ok tt, w).
Proof.
  unfold ratings_nickname_hook, fetchrow_by_profile. unfold_m.
  destruct (bool_decide _ && _); reflexivity.
Qed.

End Refresh.

(** C9: the refresh leaves the world as it is when the account has no row;
    when it has one (and the profile to encode is set, as at its call site),
    the refresh returns normally and sends nothing whatever [member.edit]
    raises, and a failed edit leaves the world as it was. *)
Theorem update_swallows_edit_failure (emojis : Emojis) (env : Env) (self : Nickname)
    (w : World) :
  (nickname (db w) !! m_id (n_member self) = None ->
   update emojis env self w = (Ok tt, w))
  /\ (forall p : Profile,
        is_Some (nickname (db w) !! m_id (n_member self)) ->
        n_profile self = Some p ->
        (update emojis env self w).1 = Ok tt
        /\ outbox (update emojis env self w).2 = outbox w
        /\ (forall e : exn, edit_raises env = Some e ->
            update emojis env self w = (Ok tt, w))).
Proof.
  split; [apply update_unbound|].
  intros p Hrow Hp. rewrite (update_bound emojis env self p w Hrow Hp).
  split; [reflexivity|]. split.
  - pose proof (member_edit_frame env self
      (Some (generate_with emojis MAX_NICKNAME_LENGTH (m_name (n_member self))
               (resolve_ratings p))) w) as (_ & Ho & _).
    simpl. destruct (member_edit _ _ _ _).1; [exact Ho|reflexivity].
  - intros e He. f_equal. unfold member_edit.
    destruct (n_guild self); [rewrite He|]; reflexivity.
Qed.

Lemma update_swallows_edit_failure_witness :
  update demo_emojis (demo_env (Some OSError)) demo_nick (demo_world ∅)
  = (Ok tt, demo_world ∅)
  /\ update demo_emojis (demo_env (Some OSError)) demo_nick (demo_world {[ 7 := demo_row ]})
     = (Ok tt, demo_world {[ 7 := demo_row ]}).
Proof.
  split.
  - apply (proj1 (update_swallows_edit_failure demo_emojis (demo_env (Some OSError))
                    demo_nick (demo_world ∅))).
    reflexivity.
  - apply (proj2 (update_swallows_edit_failure demo_emojis (demo_env (Some OSError))
                    demo_nick (demo_world {[ 7 := demo_row ]})) demo_profile)
      with (e := OSError).
    + exists demo_row. reflexivity.
    + reflexivity.
    + reflexivity.
Defined.

(** C10: the refresh writes to no table, whether the account has no row, the
    edit is applied or the edit fails; it sends nothing; the only thing it
    may change is the guild nickname of the member, which it sets to the
    encoded name.  The database is also left untouched by the lines of the
    [ratings] command that trigger the refresh. *)
Theorem update_writes_nothing (emojis : Emojis) (env : Env) (self : Nickname) (w : World) :
  (db (update emojis env self w).2 = db w
   /\ outbox (update emojis env self w).2 = outbox w
   /\ response_done (update emojis env self w).2 = response_done w
   /\ (nicks (update emojis env self w).2 = nicks w
       \/ exists (g : Z) (p : Profile),
            n_guild self = Some g /\ n_profile self = Some p
            /\ nicks (update emojis env self w).2
               = <[(g, m_id (n_member self))
                   := generate_with emojis MAX_NICKNAME_LENGTH (m_name (n_member self))
                        (resolve_ratings p)]> (nicks w)))
  /\ forall (interaction : Interaction) (member : Member) (profile : Profile),
       db (ratings_nickname_hook emojis env interaction member profile w).2 = db w.
Proof.
  split; [apply update_frame|].
  intros interaction member profile. by rewrite ratings_nickname_hook_frame.
Qed.

(** ** Properties of the selection and of the [nickname] command *)

Section Selection.

Variable env : Env.

Lemma send_view_frame (interaction : Interaction) (message : string)
    (profiles : list Profile) (w : World) :
  (send_view interaction message profiles w).1 = Ok tt
  /\ db (send_view interaction message profiles w).2 = db w
  /\ nicks (send_view interaction message profiles w).2 = nicks w.
Proof.
  unfold send_view. unfold_m. destruct (response_done w); done.
Qed.

Lemma select_profile_single (interaction : Interaction) (message : string)
    (member : option Member) (r : profile_row) (w : World) :
  fetch_profiles (db w) (m_id (default (user interaction) member)) (profiles_limit env)
  = [r] ->
  select_profile env interaction message member w = (Ok (Profile_of_record r), w).
Proof.
  intros Hf. unfold select_profile, get_profiles. unfold_m. by rewrite Hf.
Qed.

(** The selection reads the store and talks to the user; it never writes. *)
Lemma select_profile_frame (interaction : Interaction) (message : string)
    (member : option Member) (w : World) :
  db (select_profile env interaction message member w).2 = db w
  /\ nicks (select_profile env interaction message member w).2 = nicks w.
Proof.
  unfold select_profile, get_profiles. unfold_m.
  destruct (map Profile_of_record _) as [|p [|q ps]] eqn:Hm; [|done|].
  - destruct (send_view_frame interaction message [] w) as (H1 & H2 & H3).
    destruct (send_view interaction message [] w) as [[[]|e] w'];
      cbn [fst snd] in *; [|done].
    destruct (head (view_values env)); done.
  - destruct (send_view_frame interaction message (p :: q :: ps) w) as (H1 & H2 & H3).
    destruct (send_view interaction message (p :: q :: ps) w) as [[[]|e] w'];
      cbn [fst snd] in *; [|done].
    destruct (head (view_values env)); [|done].
    destruct (find _ _); done.
Qed.

Lemma select_profile_timeout (interaction : Interaction) (message : string)
    (member : option Member) (w : World) :
  (1 < length (fetch_profiles (db w) (m_id (default (user interaction) member))
                 (profiles_limit env)))%nat ->
  view_values env = [] ->
  (select_profile env interaction message member w).1 = Raise NoChoice.
Proof.
  intros Hlen Hv. unfold select_profile, get_profiles. unfold_m.
  destruct (fetch_profiles _ _ _) as [|r1 [|r2 rs]]; simpl in Hlen; try lia.
  change (map Profile_of_record (r1 :: r2 :: rs))
    with (Profile_of_record r1 :: Profile_of_record r2 :: map Profile_of_record rs).
  cbn beta iota.
  match goal with
  | |- context [send_view ?i ?m ?ps ?w] =>
      destruct (send_view_frame i m ps w) as (H1 & _);
      destruct (send_view i m ps w) as [[[]|e] w']; simpl in H1; [|done]
  end.
  by rewrite Hv.
Qed.

End Selection.

Section Command.

Variable emojis : Emojis.
Variable env : Env.

(** Whatever happens to the edit, an unbind leaves the table as it was or
    removes the row of the account, and the guild nicknames as they were or
    without the nickname of the member. *)
Lemma set_or_remove_remove_cases (self : Nickname) (pid : option Z) (w : World) :
  kept_or_removed (m_id (n_member self)) w (set_or_remove emojis env self pid true w).2
  /\ (nicks (set_or_remove emojis env self pid true w).2 = nicks w
      \/ exists g : Z,
           nicks (set_or_remove emojis env self pid true w).2
           = delete (g, m_id (n_member self)) (nicks w))
  /\ exists rest : list output,
       outbox (set_or_remove emojis env self pid true w).2 = outbox w ++ rest.
Proof.
  unfold kept_or_removed, set_or_remove. simpl negb. cbv iota.
  unfold_m. unfold member_edit, execute_delete. unfold_m.
  destruct (n_guild self) as [g|].
  - destruct (edit_raises env) as [e|].
    + destruct (is_HTTPException e); simpl.
      * split; [by right|]. split; [by left|].
        eexists. by rewrite <- app_assoc.
      * split; [by left|]. split; [by left|]. exists []. by rewrite app_nil_r.
    + simpl. split; [by right|]. split; [right; by exists g|]. by eexists.
  - simpl. split; [by left|]. split; [by left|]. exists []. by rewrite app_nil_r.
Qed.

Lemma nickname_body_bound (interaction : Interaction) (nick : Nickname) (w : World) :
  is_Some (nickname (db w) !! m_id (n_member nick)) ->
  kept_or_removed (m_id (n_member nick)) w (nickname_body emojis env interaction nick w).2
  /\ (nicks (nickname_body emojis env interaction nick w).2 = nicks w
      \/ exists g : Z,
           nicks (nickname_body emojis env interaction nick w).2
           = delete (g, m_id (n_member nick)) (nicks w))
  /\ exists rest : list output,
       outbox (nickname_body emojis env interaction nick w).2
       = outbox w ++ Prompt "This will remove your SRs in your nickname." :: rest.
Proof.
  intros Hrow. unfold nickname_body, prompt. unfold_m. rewrite exists__spec.
  rewrite bool_decide_eq_true_2 by done. cbn beta iota.
  destruct (prompt_answer env).
  - match goal with
    | |- context [set_or_remove emojis env nick None true ?w1] =>
        destruct (set_or_remove_remove_cases nick None w1) as (Ht & Hn & rest & Ho);
        destruct (set_or_remove emojis env nick None true w1) as [[[]|e] w2]
    end; cbn [fst snd db nicks outbox] in *.
    + split; [exact Ht|]. split; [exact Hn|].
      exists rest. by rewrite Ho, <- app_assoc.
    + split; [exact Ht|]. split; [exact Hn|].
      exists (rest ++ [FollowupSendExn e]). rewrite Ho. by rewrite <- !app_assoc.
  - cbn. split; [by left|]. split; [by left|]. by exists [].
Qed.

Lemma nickname_command_raises (interaction : Interaction) (w : World) :
  nickname_command emojis env interaction w
  = (Raise TypeError,
     {| db := db w; nicks := nicks w; outbox := outbox w ++ [Defer];
        response_done := true |}).
Proof. reflexivity. Qed.

Lemma nickname_body_no_choice (interaction : Interaction) (nick : Nickname) (g : Z)
    (w : World) :
  nickname (db w) !! m_id (n_member nick) = None ->
  prompt_answer env = true ->
  guild interaction = Some g ->
  top_role_lt env = false ->
  (1 < length (fetch_profiles (db w) (m_id (user interaction)) (profiles_limit env)))%nat ->
  view_values env = [] ->
  (nickname_body emojis env interaction nick w).1 = Raise NoChoice
  /\ db (nickname_body emojis env interaction nick w).2 = db w
  /\ nicks (nickname_body emojis env interaction nick w).2 = nicks w.
Proof.
  intros Hrow Hans Hg Hrole Hlen Hv. unfold nickname_body, prompt. unfold_m.
  rewrite exists__spec.
  rewrite bool_decide_eq_false_2 by (rewrite Hrow; by intros [? ?]).
  cbn beta iota. rewrite Hans. cbn beta iota. change (negb true) with false.
  rewrite Hg, Hrole. cbn beta iota.
  match goal with
  | |- context [select_profile env interaction ?m None ?w1] =>
      pose proof (select_profile_timeout env interaction m None w1 Hlen Hv) as H1;
      destruct (select_profile_frame env interaction m None w1) as (H2 & H3);
      destruct (select_profile env interaction m None w1) as [[p|e] w2]
  end; cbn [fst snd] in *; [done|].
  by inversion H1.
Qed.

End Command.

(** C7: when the account already has a row, the [nickname] command never
    reaches the bind: what follows the construction of the [Nickname] object
    asks to confirm the removal and leaves the table as it was or without the
    row of the account (no row is added, none is changed), and the guild
    nickname as it was or cleared; and the command as a whole leaves the
    table as it was. *)
Theorem bind_not_offered_when_bound (emojis : Emojis) (env : Env)
    (interaction : Interaction) (nick : Nickname) (w : World) :
  n_member nick = user interaction ->
  is_Some (nickname (db w) !! m_id (user interaction)) ->
  kept_or_removed (m_id (user interaction)) w
    (nickname_body emojis env interaction nick w).2
  /\ (nicks (nickname_body emojis env interaction nick w).2 = nicks w
      \/ exists g : Z,
           nicks (nickname_body emojis env interaction nick w).2
           = delete (g, m_id (user interaction)) (nicks w))
  /\ (exists rest : list output,
        outbox (nickname_body emojis env interaction nick w).2
        = outbox w ++ Prompt "This will remove your SRs in your nickname." :: rest)
  /\ nickname (db (nickname_command emojis env interaction w).2) = nickname (db w).
Proof.
  intros Hm Hrow. rewrite <- Hm in *.
  destruct (nickname_body_bound emojis env interaction nick w Hrow) as (H1 & H2 & H3).
  repeat split; try done.
Qed.

Lemma bind_not_offered_when_bound_witness :
  kept_or_removed 7 (demo_world {[ 7 := demo_row ]})
    (nickname_body demo_emojis (demo_env None) demo_interaction demo_nick
       (demo_world {[ 7 := demo_row ]})).2.
Proof.
  apply (bind_not_offered_when_bound demo_emojis (demo_env None) demo_interaction
           demo_nick (demo_world {[ 7 := demo_row ]})).
  - reflexivity.
  - exists demo_row. reflexivity.
Defined.

(** C8: with exactly one candidate profile the selection returns it and the
    world is untouched (no menu is sent); with more than one candidate and no
    value chosen when the wait ends, the selection raises [NoChoice] and has
    written nothing; and the [nickname] command that asked for the selection
    then ends with [NoChoice], the database and the guild nicknames being as
    they were. *)
Theorem select_profile_outcomes (emojis : Emojis) (env : Env) (interaction : Interaction)
    (message : string) (member : option Member) (w : World) :
  (forall r : profile_row,
     fetch_profiles (db w) (m_id (default (user interaction) member)) (profiles_limit env)
     = [r] ->
     select_profile env interaction message member w = (Ok (Profile_of_record r), w))
  /\ ((1 < length (fetch_profiles (db w) (m_id (default (user interaction) member))
                     (profiles_limit env)))%nat ->
      view_values env = [] ->
      (select_profile env interaction message member w).1 = Raise NoChoice
      /\ db (select_profile env interaction message member w).2 = db w
      /\ nicks (select_profile env interaction message member w).2 = nicks w)
  /\ (forall (nick : Nickname) (g : Z),
        nickname (db w) !! m_id (n_member nick) = None ->
        prompt_answer env = true ->
        guild interaction = Some g ->
        top_role_lt env = false ->
        (1 < length (fetch_profiles (db w) (m_id (user interaction))
                       (profiles_limit env)))%nat ->
        view_values env = [] ->
        (nickname_body emojis env interaction nick w).1 = Raise NoChoice
        /\ db (nickname_body emojis env interaction nick w).2 = db w
        /\ nicks (nickname_body emojis env interaction nick w).2 = nicks w).
Proof.
  split; [|split].
  - intros r Hf. by apply select_profile_single.
  - intros Hlen Hv. split; [by apply select_profile_timeout|].
    apply select_profile_frame.
  - intros nick g. apply nickname_body_no_choice.
Qed.

Lemma select_profile_outcomes_witness :
  select_profile (demo_env None) demo_interaction "Select a profile." None demo_single_world
  = (Ok (Profile_of_record {| pr_id := 3; pr_member_id := 7; pr_platform := "pc";
                              pr_username := lit "Alice#1234" |}), demo_single_world)
  /\ (select_profile (demo_env None) demo_interaction "Select a profile." None
        (demo_world ∅)).1 = Raise NoChoice
  /\ (nickname_body demo_emojis (demo_env None) demo_interaction demo_nick (demo_world ∅)).1
     = Raise NoChoice.
Proof.
  split; [|split].
  - apply (proj1 (select_profile_outcomes demo_emojis (demo_env None) demo_interaction
                    "Select a profile." None demo_single_world)).
    reflexivity.
  - apply (proj1 (proj2 (select_profile_outcomes demo_emojis (demo_env None)
                           demo_interaction "Select a profile." None (demo_world ∅)))).
    + vm_compute. lia.
    + reflexivity.
  - apply (proj2 (proj2 (select_profile_outcomes demo_emojis (demo_env None)
                           demo_interaction "Select a profile." None (demo_world ∅)))
             demo_nick 1).
    + reflexivity.
    + reflexivity.
    + reflexivity.
    + reflexivity.
    + vm_compute. lia.
    + reflexivity.
Defined.

(** ** Further properties of the encoder *)

Lemma slice_to_all {A} (s : list A) (x : Z) :
  len s <= x -> slice_to s x = s.
Proof.
  intros Hx. unfold len in Hx. rewrite slice_to_nonneg by lia.
  apply take_ge. lia.
Qed.

(** X1: a name that fits is kept whole, nothing is added to fill the room:
    with no rating and a name of at most 21 characters the nickname is the
    name followed by [" [Unranked]"]; with ratings and a name no longer than
    the room left by the suffix it is the name, a space and the suffix. *)
Theorem short_name_kept_whole (emojis : Emojis) (L : Z) (name : str) (ratings : ratings_t) :
  (truthy ratings = false ->
   len name <= 21 ->
   generate_with emojis L name ratings = name ++ lit " [Unranked]")
  /\ (forall items : list (string * Z),
        ratings = Some items ->
        items <> [] ->
        len name <= L - len (suffix emojis items) - 1 ->
        generate_with emojis L name ratings = name ++ lit " " ++ suffix emojis items).
Proof.
  split.
  - intros Ht Hn. rewrite generate_with_unranked by done.
    by rewrite slice_to_all.
  - intros items -> Hne Hn. rewrite generate_with_ranked by done.
    by rewrite slice_to_all.
Qed.

Lemma short_name_kept_whole_witness :
  generate_with demo_emojis 32 (lit "Bob") None = lit "Bob [Unranked]"
  /\ generate_with demo_emojis 32 (lit "Bob") (Some [("tank"%string, 1000)])
     = lit "Bob" ++ lit " " ++ suffix demo_emojis [("tank"%string, 1000)].
Proof.
  split.
  - apply (proj1 (short_name_kept_whole demo_emojis 32 (lit "Bob") None)).
    + reflexivity.
    + vm_compute. discriminate.
  - apply (proj2 (short_name_kept_whole demo_emojis 32 (lit "Bob")
                    (Some [("tank"%string, 1000)])) [("tank"%string, 1000)]).
    + reflexivity.
    + discriminate.
    + vm_compute. discriminate.
Defined.

(** X2: a key that is none of the three roles has no glyph: [ROLES.get]
    gives [None] and the f-string writes the text [None] before the
    rating. *)
Theorem unknown_role_rendered_as_None (emojis : Emojis) (key : string) (value : Z) :
  key <> "tank"%string -> key <> "offense"%string -> key <> "support"%string ->
  entry emojis (key, value) = lit "None" ++ str_of_int value
  /\ suffix emojis [(key, value)] = lit "[None" ++ str_of_int value ++ lit "]".
Proof.
  intros H1 H2 H3.
  assert (He : entry emojis (key, value) = lit "None" ++ str_of_int value).
  { unfold entry, ROLES. simpl fst. simpl snd.
    rewrite !lookup_insert_ne by done. by rewrite lookup_empty. }
  split; [exact He|].
  rewrite suffix_join by done. simpl map. simpl join_slash. rewrite He.
  by rewrite <- !app_assoc.
Qed.

Lemma unknown_role_rendered_as_None_witness :
  suffix demo_emojis [("damage"%string, 2500)] = lit "[None2500]".
Proof.
  apply (proj2 (unknown_role_rendered_as_None demo_emojis "damage" 2500
                  ltac:(discriminate) ltac:(discriminate) ltac:(discriminate))).
Defined.

Lemma str_of_int_small (v : Z) :
  0 <= v <= 9999 -> len (str_of_int v) <= 4.
Proof.
  intros Hv.
  assert (Hall : forallb (fun n => len (str_of_int (Z.of_nat n)) <=? 4)
                   (seq 0 (Z.to_nat 10000)) = true) by (vm_compute; reflexivity).
  rewrite forallb_forall in Hall.
  specialize (Hall (Z.to_nat v)).
  rewrite Z2Nat.id in Hall by lia.
  apply Z.leb_le, Hall, in_seq. lia.
Qed.

Lemma len_join_slash (parts : list str) (b : Z) :
  parts <> [] ->
  Forall (fun p => len p <= b) parts ->
  len (join_slash parts) <= (b + 1) * Z.of_nat (length parts) - 1.
Proof.
  induction parts as [|p parts IH]; [done|]. intros _ Hall.
  apply Forall_cons in Hall as [Hp Hall].
  destruct parts as [|q parts].
  - simpl. lia.
  - change (join_slash (p :: q :: parts))
      with (p ++ lit "/" ++ join_slash (q :: parts)).
    rewrite !len_app. change (len (lit "/")) with 1.
    specialize (IH ltac:(done) Hall).
    change (length (p :: q :: parts)) with (S (length (q :: parts))).
    lia.
Qed.

Lemma len_entry_role (emojis : Emojis) (key : string) (value : Z) :
  len (u_tank emojis) <= 2 ->
  len (u_offense emojis) <= 2 ->
  len (u_support emojis) <= 2 ->
  key ∈ canonical_roles ->
  0 <= value <= 9999 ->
  len (entry emojis (key, value)) <= 6.
Proof.
  intros Ht Ho Hs Hk Hv. unfold entry. simpl fst. simpl snd.
  rewrite len_app. pose proof (str_of_int_small value Hv).
  destruct (roles_glyphs emojis) as (Rt & Ro & Rs).
  unfold canonical_roles in Hk.
  apply elem_of_cons in Hk as [->|Hk]; [rewrite Rt; simpl; lia|].
  apply elem_of_cons in Hk as [->|Hk]; [rewrite Ro; simpl; lia|].
  apply elem_of_cons in Hk as [->|Hk]; [rewrite Rs; simpl; lia|].
  by apply elem_of_nil in Hk.
Qed.

(** X3: for a rating dict as the game gives it (distinct keys among tank,
    offense and support, ratings from 0 to 9999) and glyphs of at most two
    characters, the suffix has at most 22 characters, so at least 9
    characters of the name have room and the nickname never has more than
    32 characters. *)
Theorem game_ratings_fit (emojis : Emojis) (name : str) (items : list (string * Z)) :
  len (u_tank emojis) <= 2 ->
  len (u_offense emojis) <= 2 ->
  len (u_support emojis) <= 2 ->
  items <> [] ->
  NoDup (map fst items) ->
  Forall (fun kv => kv.1 ∈ canonical_roles /\ 0 <= kv.2 <= 9999) items ->
  len (suffix emojis items) <= 22
  /\ 9 <= MAX_NICKNAME_LENGTH - len (suffix emojis items) - 1
  /\ len (generate_with emojis MAX_NICKNAME_LENGTH name (Some items))
     <= MAX_NICKNAME_LENGTH.
Proof.
  intros Ht Ho Hs Hne Hnd Hall.
  assert (Hlen : (length items <= 3)%nat).
  { rewrite <- (length_map fst items).
    change 3%nat with (length canonical_roles).
    apply submseteq_length, NoDup_submseteq; [done|].
    intros k Hk. apply list_elem_of_fmap in Hk as (kv & -> & Hkv).
    rewrite Forall_forall in Hall. by apply Hall. }
  assert (Hsuf : len (suffix emojis items) <= 22).
  { rewrite suffix_join by done. rewrite !len_app.
    change (len (lit "[")) with 1. change (len (lit "]")) with 1.
    pose proof (len_join_slash (map (entry emojis) items) 6) as Hj.
    rewrite length_map in Hj.
    assert (map (entry emojis) items <> []) as Hm by (by destruct items).
    specialize (Hj Hm).
    assert (Forall (fun p => len p <= 6) (map (entry emojis) items)) as Hf.
    { apply Forall_map. eapply Forall_impl; [exact Hall|].
      intros [k v] [Hk Hv]. by apply len_entry_role. }
    specialize (Hj Hf). lia. }
  split; [exact Hsuf|]. unfold MAX_NICKNAME_LENGTH. split; [lia|].
  rewrite generate_with_ranked by done. rewrite !len_app, len_space.
  pose proof (len_slice_to_le name (32 - len (suffix emojis items) - 1)).
  lia.
Qed.

Lemma game_ratings_fit_witness :
  len (generate_with demo_emojis MAX_NICKNAME_LENGTH
         (lit "A very long member name, longer than 32")
         (Some [("tank"%string, 1000); ("offense"%string, 2500); ("support"%string, 4999)]))
  <= MAX_NICKNAME_LENGTH.
Proof.
  apply (game_ratings_fit demo_emojis (lit "A very long member name, longer than 32")
           [("tank"%string, 1000); ("offense"%string, 2500); ("support"%string, 4999)]).
  - vm_compute. discriminate.
  - vm_compute. discriminate.
  - vm_compute. discriminate.
  - discriminate.
  - apply (bool_decide_unpack _). by vm_compute.
  - apply (bool_decide_unpack _). by vm_compute.
Defined.

(** ** Further properties of binding, unbinding and the refresh *)

Section Operations.

Variable emojis : Emojis.
Variable env : Env.

(** Binding when the edit is applied: the whole outcome. *)
Lemma set_or_remove_set_applied (self : Nickname) (p : Profile) (g : Z)
    (pid : option Z) (w : World) :
  n_profile self = Some p ->
  n_guild self = Some g ->
  nickname (db w) !! m_id (n_member self) = None ->
  edit_raises env = None ->
  set_or_remove emojis env self pid false w
  = (Ok tt,
     {| db := with_nickname (db w)
                (<[m_id (n_member self) := {| server_id := g; profile_id := pid |}]>
                   (nickname (db w)));
        nicks := <[(g, m_id (n_member self))
                   := generate_with emojis MAX_NICKNAME_LENGTH (m_name (n_member self))
                        (resolve_ratings p)]> (nicks w);
        outbox := outbox w ++ [FollowupSend "Nickname successfully set." true];
        response_done := response_done w |}).
Proof.
  intros Hp Hg Hrow He. unfold set_or_remove. simpl negb. cbv iota.
  unfold_m. rewrite (_generate_returns emojis self p w Hp).
  rewrite (member_edit_applied env self _ g w Hg He), Hg.
  unfold execute_insert. simpl. rewrite Hrow. unfold_m. reflexivity.
Qed.

(** Unbinding when the edit is applied: the whole outcome. *)
Lemma set_or_remove_remove_applied (self : Nickname) (g : Z) (pid : option Z) (w : World) :
  n_guild self = Some g ->
  edit_raises env = None ->
  set_or_remove emojis env self pid true w
  = (Ok tt,
     {| db := with_nickname (db w) (delete (m_id (n_member self)) (nickname (db w)));
        nicks := delete (g, m_id (n_member self)) (nicks w);
        outbox := outbox w ++ [FollowupSend "Nickname successfully removed." true];
        response_done := response_done w |}).
Proof.
  intros Hg He. unfold set_or_remove. simpl negb. cbv iota.
  unfold_m. rewrite (member_edit_applied env self _ g w Hg He).
  unfold execute_delete. unfold_m. reflexivity.
Qed.

(** Binding when the edit raises something that is no HTTP error. *)
Lemma set_or_remove_set_raises (self : Nickname) (p : Profile) (g : Z) (e : exn)
    (pid : option Z) (w : World) :
  n_profile self = Some p ->
  n_guild self = Some g ->
  edit_raises env = Some e ->
  is_HTTPException e = false ->
  set_or_remove emojis env self pid false w = (Raise e, w).
Proof.
  intros Hp Hg He Hno. unfold set_or_remove. simpl negb. cbv iota.
  unfold_m. rewrite (_generate_returns emojis self p w Hp).
  rewrite (member_edit_raises env self _ g e w Hg He).
  by rewrite Hno.
Qed.

Lemma with_nickname_same (d : DB) : with_nickname d (nickname d) = d.
Proof. by destruct d. Qed.

End Operations.

(** X4: a bind followed by an unbind, both edits applied, on an account that
    had no row: both calls return normally, the database is back to what it
    was, the member's nickname in the guild is cleared, and only the two
    confirmations were sent. *)
Theorem bind_then_unbind_round_trip (emojis : Emojis) (env : Env) (self : Nickname)
    (p : Profile) (g : Z) (pid : option Z) (w : World) :
  n_profile self = Some p ->
  n_guild self = Some g ->
  nickname (db w) !! m_id (n_member self) = None ->
  edit_raises env = None ->
  (set_or_remove emojis env self pid false w).1 = Ok tt
  /\ set_or_remove emojis env self None true
       (set_or_remove emojis env self pid false w).2
     = (Ok tt,
        {| db := db w;
           nicks := delete (g, m_id (n_member self)) (nicks w);
           outbox := outbox w ++ [FollowupSend "Nickname successfully set." true;
                                  FollowupSend "Nickname successfully removed." true];
           response_done := response_done w |}).
Proof.
  intros Hp Hg Hrow He.
  rewrite (set_or_remove_set_applied emojis env self p g pid w Hp Hg Hrow He).
  split; [reflexivity|].
  rewrite (set_or_remove_remove_applied emojis env self g None _ Hg He).
  cbn [db nicks outbox response_done fst snd].
  unfold with_nickname at 1.
  cbn [nickname profile member rating with_nickname].
  rewrite delete_insert_eq, (delete_id (nickname (db w))) by done.
  rewrite delete_insert_eq, <- app_assoc.
  by destruct (db w).
Qed.

Lemma bind_then_unbind_round_trip_witness :
  set_or_remove demo_emojis (demo_env None) demo_nick None true
    (set_or_remove demo_emojis (demo_env None) demo_nick (Some 3) false (demo_world ∅)).2
  = (Ok tt,
     {| db := demo_db ∅;
        nicks := delete (1, 7) ∅;
        outbox := [FollowupSend "Nickname successfully set." true;
                   FollowupSend "Nickname successfully removed." true];
        response_done := true |}).
Proof.
  refine (proj2 (bind_then_unbind_round_trip demo_emojis (demo_env None) demo_nick
                   demo_profile 1 (Some 3) (demo_world ∅) _ _ _ _)).
  - reflexivity.
  - reflexivity.
  - reflexivity.
  - reflexivity.
Defined.

(** X5: an edit that raises anything but an HTTP error ends [set_or_remove]
    at the edit, for a bind as for an unbind: the exception reaches the
    caller, no row is written or deleted, the nickname is as it was and
    nothing is sent. *)
Theorem unexpected_edit_error_aborts (emojis : Emojis) (env : Env) (self : Nickname)
    (g : Z) (e : exn) (pid : option Z) (remove : bool) (w : World) :
  n_guild self = Some g ->
  edit_raises env = Some e ->
  is_HTTPException e = false ->
  (remove = false -> is_Some (n_profile self)) ->
  set_or_remove emojis env self pid remove w = (Raise e, w).
Proof.
  intros Hg He Hno Hp. destruct remove.
  - by apply (set_or_remove_remove_raises emojis env self pid g e w).
  - destruct (Hp eq_refl) as [p Hprof].
    by apply (set_or_remove_set_raises emojis env self p g e pid w).
Qed.

Lemma unexpected_edit_error_aborts_witness :
  set_or_remove demo_emojis (demo_env (Some OSError)) demo_nick (Some 3) false (demo_world ∅)
  = (Raise OSError, demo_world ∅).
Proof.
  apply (unexpected_edit_error_aborts demo_emojis (demo_env (Some OSError)) demo_nick
           1 OSError (Some 3) false (demo_world ∅)).
  - reflexivity.
  - reflexivity.
  - reflexivity.
  - intros _. exists demo_profile. reflexivity.
Defined.

(** X6: unbinding an account that has no row still reports success: when the
    edit is applied or fails with an HTTP error, the call returns normally,
    the database is exactly as it was, and the last message sent is the
    confirmation of the removal. *)
Theorem unbind_without_binding (emojis : Emojis) (env : Env) (self : Nickname)
    (g : Z) (pid : option Z) (w : World) :
  n_guild self = Some g ->
  recoverable (edit_raises env) = true ->
  nickname (db w) !! m_id (n_member self) = None ->
  (set_or_remove emojis env self pid true w).1 = Ok tt
  /\ db (set_or_remove emojis env self pid true w).2 = db w
  /\ last (outbox (set_or_remove emojis env self pid true w).2)
     = Some (FollowupSend "Nickname successfully removed." true).
Proof.
  intros Hg Hrec Hrow. unfold set_or_remove. simpl negb. cbv iota.
  unfold_m. unfold execute_delete, member_edit. rewrite Hg. unfold_m.
  destruct (edit_raises env) as [e|]; simpl in *.
  - rewrite Hrec. simpl. rewrite delete_id by done.
    rewrite with_nickname_same. by rewrite last_snoc.
  - rewrite delete_id by done.
    rewrite with_nickname_same. by rewrite last_snoc.
Qed.

Lemma unbind_without_binding_witness :
  db (set_or_remove demo_emojis (demo_env (Some Forbidden)) demo_nick None true
        (demo_world ∅)).2
  = db (demo_world ∅).
Proof.
  apply (unbind_without_binding demo_emojis (demo_env (Some Forbidden)) demo_nick 1 None
           (demo_world ∅)).
  - reflexivity.
  - reflexivity.
  - reflexivity.
Defined.

(** X7: the refresh is idempotent: running it again on the world it left
    gives the same result and the same world, whether the account has a row
    or not and whatever the edit does. *)
Theorem update_idempotent (emojis : Emojis) (env : Env) (self : Nickname) (w : World) :
  update emojis env self (update emojis env self w).2 = update emojis env self w.
Proof.
  unfold update. unfold_m. rewrite !exists__spec.
  destruct (bool_decide (is_Some (nickname (db w) !! m_id (n_member self)))) eqn:Hb;
    cbn [negb fst snd]; [|by rewrite Hb].
  unfold _generate. unfold_m.
  destruct (n_profile self) as [p|]; cbn [fst snd]; [|by rewrite Hb].
  unfold member_edit. unfold_m.
  destruct (n_guild self) as [g|]; cbn [fst snd is_Exception db]; [|by rewrite Hb].
  destruct (edit_raises env) as [e|]; cbn [fst snd is_Exception db nicks outbox response_done];
    rewrite Hb; cbn [negb]; [reflexivity|].
  cbn [db nicks outbox response_done]. by rewrite insert_insert_eq.
Qed.

(** X8: when the account has a row and the edit is applied, the refresh sets
    the nickname of the member in the guild of the interaction to the
    encoding of the profile, and leaves every other nickname, in this guild
    and in the others, as it was. *)
Theorem update_applies_encoding (emojis : Emojis) (env : Env) (self : Nickname)
    (p : Profile) (g : Z) (w : World) :
  is_Some (nickname (db w) !! m_id (n_member self)) ->
  n_profile self = Some p ->
  n_guild self = Some g ->
  edit_raises env = None ->
  nicks (update emojis env self w).2 !! (g, m_id (n_member self))
  = Some (generate_with emojis MAX_NICKNAME_LENGTH (m_name (n_member self))
            (resolve_ratings p))
  /\ forall k : Z * Z,
       k <> (g, m_id (n_member self)) ->
       nicks (update emojis env self w).2 !! k = nicks w !! k.
Proof.
  intros Hrow Hp Hg He.
  rewrite (update_bound emojis env self p w Hrow Hp).
  rewrite (member_edit_applied env self _ g w Hg He). cbn [fst snd nicks].
  split; [by rewrite lookup_insert_eq|].
  intros k Hk. by rewrite lookup_insert_ne.
Qed.

Lemma update_applies_encoding_witness :
  nicks (update demo_emojis (demo_env None) demo_nick (demo_world {[ 7 := demo_row ]})).2
    !! (1, m_id (n_member demo_nick))
  = Some (generate_with demo_emojis MAX_NICKNAME_LENGTH (m_name (n_member demo_nick))
            (resolve_ratings demo_profile)).
Proof.
  apply (update_applies_encoding demo_emojis (demo_env None) demo_nick demo_profile 1
           (demo_world {[ 7 := demo_row ]})).
  - exists demo_row. reflexivity.
  - reflexivity.
  - reflexivity.
  - reflexivity.
Defined.

(** ** Further properties of the selection *)

Section Candidates.

Variable env : Env.

Lemma fetch_profiles_elem (d : DB) (id : Z) (limit : nat) (r : profile_row) :
  r ∈ fetch_profiles d id limit ->
  r ∈ profile d /\ pr_member_id r = id /\ id ∈ member d.
Proof.
  unfold fetch_profiles. case_bool_decide as Hm; [|by intros ?%elem_of_nil].
  intros (i & Hi & _)%elem_of_take.
  apply list_elem_of_lookup_2, list_elem_of_filter in Hi as [Hid Hr].
  done.
Qed.

Lemma fetch_profiles_length (d : DB) (id : Z) (limit : nat) :
  (length (fetch_profiles d id limit) <= limit)%nat.
Proof.
  unfold fetch_profiles. case_bool_decide; [rewrite length_take; lia|simpl; lia].
Qed.

Lemma p_id_of_records (rs : list profile_row) :
  map p_id (map Profile_of_record rs) = map pr_id rs.
Proof. induction rs as [|r rs IH]; [done|]. simpl. by rewrite IH. Qed.

(** The selection when the candidates are not exactly one: the menu is sent
    and the value it holds decides. *)
Lemma select_profile_menu (interaction : Interaction) (message : string)
    (member : option Member) (w : World) :
  length (candidates env interaction member w) <> 1%nat ->
  select_profile env interaction message member w
  = (match head (view_values env) with
     | Some c =>
         match find (fun p => p_id p =? c)
                 (map Profile_of_record (candidates env interaction member w)) with
         | Some p => Ok p
         | None => Raise NoChoice
         end
     | None => Raise NoChoice
     end,
     (send_view interaction message
        (map Profile_of_record (candidates env interaction member w)) w).2).
Proof.
  intros Hlen. unfold select_profile, get_profiles, candidates in *. unfold_m.
  destruct (fetch_profiles _ _ _) as [|r1 [|r2 rs]]; [|done|].
  - change (map Profile_of_record []) with (@nil Profile). cbn beta iota.
    destruct (send_view_frame interaction message [] w) as (H1 & _).
    destruct (send_view interaction message [] w) as [[[]|e] w'];
      cbn [fst snd] in *; [|done].
    destruct (head (view_values env)); reflexivity.
  - change (map Profile_of_record (r1 :: r2 :: rs))
      with (Profile_of_record r1 :: Profile_of_record r2 :: map Profile_of_record rs).
    cbn beta iota.
    match goal with
    | |- context [send_view ?i ?m ?ps ?w] =>
        destruct (send_view_frame i m ps w) as (H1 & _);
        destruct (send_view i m ps w) as [[[]|e] w']; cbn [fst snd] in *; [|done]
    end.
    destruct (head (view_values env)); [|reflexivity].
    destruct (find _ _); reflexivity.
Qed.

Lemma find_p_id_Some (c : Z) (ps : list Profile) (p : Profile) :
  find (fun p => p_id p =? c) ps = Some p -> p ∈ ps /\ p_id p = c.
Proof.
  intros [Hin Heq]%find_some. split; [by apply list_elem_of_In|lia].
Qed.

End Candidates.

(** X9: [get_profiles] only reads: it returns the world as it was, with at
    most as many profiles as the member's limit, each built from a record of
    the table [profile] that belongs to the member; a member without a row
    in [member] has none. *)
Theorem get_profiles_owned_and_limited (env : Env) (id : Z) (w : World) :
  exists rs : list profile_row,
    get_profiles env id w = (Ok (map Profile_of_record rs), w)
    /\ (length rs <= profiles_limit env)%nat
    /\ Forall (fun r => r ∈ profile (db w) /\ pr_member_id r = id) rs
    /\ (rs = [] \/ id ∈ member (db w)).
Proof.
  exists (fetch_profiles (db w) id (profiles_limit env)).
  split; [reflexivity|]. split; [apply fetch_profiles_length|]. split.
  - apply Forall_forall. intros r Hr.
    by apply fetch_profiles_elem in Hr as (? & ? & ?).
  - unfold fetch_profiles. case_bool_decide; [by right|by left].
Qed.

(** X10: whatever the menu holds, a profile returned by the selection is one
    of the candidates: it is built from a record of the table [profile] that
    belongs to the member the selection is about (the caller when no member
    is given); so with no candidate the selection never returns a profile. *)
Theorem select_profile_returns_candidate (env : Env) (interaction : Interaction)
    (message : string) (member : option Member) (p : Profile) (w : World) :
  (select_profile env interaction message member w).1 = Ok p ->
  exists r : profile_row,
    r ∈ candidates env interaction member w
    /\ r ∈ profile (db w)
    /\ pr_member_id r = m_id (default (user interaction) member)
    /\ p = Profile_of_record r.
Proof.
  intros Hsel.
  assert (exists r, r ∈ candidates env interaction member w /\ p = Profile_of_record r)
    as (r & Hr & ->).
  { destruct (decide (length (candidates env interaction member w) = 1%nat)) as [H1|H1].
    - destruct (candidates env interaction member w) as [|r [|r2 rs]] eqn:Hc;
        simpl in H1; try lia.
      rewrite (select_profile_single env interaction message member r w Hc) in Hsel.
      exists r. split; [by apply list_elem_of_here|]. by inversion Hsel.
    - rewrite (select_profile_menu env interaction message member w H1) in Hsel.
      cbn [fst] in Hsel.
      destruct (head (view_values env)) as [c|]; [|done].
      destruct (find _ _) as [q|] eqn:Hf; [|done].
      inversion Hsel; subst q.
      apply find_p_id_Some in Hf as [Hin _].
      apply list_elem_of_fmap in Hin as (r & -> & Hr). by exists r. }
  exists r. split; [done|].
  by apply fetch_profiles_elem in Hr as (? & ? & ?).
Qed.

Lemma select_profile_returns_candidate_witness :
  exists r : profile_row,
    r ∈ candidates (demo_choice_env 4) demo_interaction None (demo_world ∅)
    /\ r ∈ profile (db (demo_world ∅))
    /\ pr_member_id r = m_id (default (user demo_interaction) None)
    /\ {| p_id := 4; p_platform := "xbox"; p_username := lit "Alice"; p_data := None |}
       = Profile_of_record r.
Proof.
  apply (select_profile_returns_candidate (demo_choice_env 4) demo_interaction
           "Select a profile." None).
  reflexivity.
Defined.

(** X11: with no or several candidates, the value the menu holds when the
    wait ends decides: if it is the id of a candidate, the selection returns
    a candidate with that id; if it is not, the selection raises [NoChoice]. *)
Theorem select_profile_honours_choice (env : Env) (interaction : Interaction)
    (message : string) (member : option Member) (c : Z) (w : World) :
  length (candidates env interaction member w) <> 1%nat ->
  head (view_values env) = Some c ->
  (c ∈ map pr_id (candidates env interaction member w) ->
   exists r : profile_row,
     r ∈ candidates env interaction member w /\ pr_id r = c
     /\ (select_profile env interaction message member w).1 = Ok (Profile_of_record r))
  /\ (c ∉ map pr_id (candidates env interaction member w) ->
      (select_profile env interaction message member w).1 = Raise NoChoice).
Proof.
  intros Hlen Hc.
  rewrite (select_profile_menu env interaction message member w Hlen), Hc.
  cbn [fst]. split.
  - intros Hin.
    destruct (find _ _) as [q|] eqn:Hf.
    + apply find_p_id_Some in Hf as [Hq Hid].
      apply list_elem_of_fmap in Hq as (r & -> & Hr). by exists r.
    + exfalso. apply list_elem_of_fmap in Hin as (r & -> & Hr).
      pose proof (find_none _ _ Hf (Profile_of_record r)) as Hn.
      cbn beta in Hn. rewrite Z.eqb_refl in Hn.
      assert (true = false) by (apply Hn, list_elem_of_In; by apply list_elem_of_fmap_2).
      done.
  - intros Hnot. destruct (find _ _) as [q|] eqn:Hf; [|done].
    exfalso. apply find_p_id_Some in Hf as [Hq Hid].
    apply list_elem_of_fmap in Hq as (r & -> & Hr).
    apply Hnot. rewrite <- Hid. by apply (list_elem_of_fmap_2 pr_id).
Qed.

Lemma select_profile_honours_choice_witness :
  (4 ∈ map pr_id (candidates (demo_choice_env 4) demo_interaction None (demo_world ∅)) ->
   exists r : profile_row,
     r ∈ candidates (demo_choice_env 4) demo_interaction None (demo_world ∅)
     /\ pr_id r = 4
     /\ (select_profile (demo_choice_env 4) demo_interaction "Select a profile." None
           (demo_world ∅)).1 = Ok (Profile_of_record r))
  /\ (4 ∉ map pr_id (candidates (demo_choice_env 4) demo_interaction None (demo_world ∅)) ->
      (select_profile (demo_choice_env 4) demo_interaction "Select a profile." None
         (demo_world ∅)).1 = Raise NoChoice).
Proof.
  apply (select_profile_honours_choice (demo_choice_env 4) demo_interaction
           "Select a profile." None 4 (demo_world ∅)).
  - vm_compute. lia.
  - reflexivity.
Defined.

(** X12: with no or several candidates the selection sends exactly one
    message, the menu: its options are the ids of the candidates, it is
    addressed to the caller of the command (also when the profiles are those
    of another member), it goes through the followup when the interaction
    was already answered and is the first response otherwise; afterwards the
    interaction is answered. *)
Theorem select_menu_addressed_to_caller (env : Env) (interaction : Interaction)
    (message : string) (member : option Member) (w : World) :
  length (candidates env interaction member w) <> 1%nat ->
  outbox (select_profile env interaction message member w).2
  = outbox w
    ++ [(if response_done w then FollowupSendView else ResponseSendView)
          message (map pr_id (candidates env interaction member w))
          (m_id (user interaction))]
  /\ response_done (select_profile env interaction message member w).2 = true.
Proof.
  intros Hlen.
  rewrite (select_profile_menu env interaction message member w Hlen).
  cbn [snd]. unfold send_view. unfold_m. rewrite p_id_of_records.
  destruct (response_done w) eqn:Hd; cbn [outbox response_done]; by rewrite ?Hd.
Qed.

Lemma select_menu_addressed_to_caller_witness :
  response_done (select_profile (demo_env None) demo_interaction "Select a profile."
                   (Some {| m_id := 8; m_name := lit "Bob" |}) (demo_world ∅)).2 = true.
Proof.
  apply (select_menu_addressed_to_caller (demo_env None) demo_interaction
           "Select a profile." (Some {| m_id := 8; m_name := lit "Bob" |}) (demo_world ∅)).
  vm_compute. lia.
Defined.

(** ** Further properties of the [nickname] command and of the [ratings] hook *)

Section Body.

Variable emojis : Emojis.
Variable env : Env.



(** The unbound account that accepts the prompt, in a guild where the role
    of the bot is high enough: what is left is the selection and what
    follows it. *)
Lemma nickname_body_unbound_accepted (interaction : Interaction) (nick : Nickname) (g : Z)
    (w : World) :
  nickname (db w) !! m_id (n_member nick) = None ->
  prompt_answer env = true ->
  guild interaction = Some g ->
  top_role_lt env = false ->
  nickname_body emojis env interaction nick w
  = (profile ← select_profile env interaction
                 "Select a profile to use for the nickname SRs." None;
     let profile := compute_data env profile in
     if is_private profile then send (FollowupSendPrivateEmbed (p_id profile))
     else
       try_except (set_or_remove emojis env (with_profile nick profile)
                     (Some (p_id profile)) false)
         is_Exception (fun e => send (FollowupSendExn e)))
      {| db := db w; nicks := nicks w;
         outbox := outbox w ++ [Prompt "This will display your SRs in your nickname."];
         response_done := response_done w |}.
Proof.
  intros Hrow Hans Hg Hrole. unfold nickname_body, prompt. unfold_m.
  rewrite exists__spec.
  rewrite bool_decide_eq_false_2 by (rewrite Hrow; by intros [? ?]).
  cbn beta iota. rewrite Hans. cbn beta iota. change (negb true) with false.
  rewrite Hg, Hrole. reflexivity.
Qed.

End Body.

(** X13: the [nickname] command never gets past the construction of the
    [Nickname] object: the call passes the keyword [bot], which [__init__]
    does not take, so after the deferral the command ends with a
    [TypeError]; no prompt is sent, no nickname is edited and no row is
    written, whatever the state of the account. *)
Theorem nickname_command_stops_at_constructor (emojis : Emojis) (env : Env)
    (interaction : Interaction) (w : World) :
  (nickname_command emojis env interaction w).1 = Raise TypeError
  /\ db (nickname_command emojis env interaction w).2 = db w
  /\ nicks (nickname_command emojis env interaction w).2 = nicks w
  /\ outbox (nickname_command emojis env interaction w).2 = outbox w ++ [Defer].
Proof. by rewrite nickname_command_raises. Qed.

(** X14: the nickname hook of the [ratings] command changes nothing in the
    world; it ends with a [TypeError] exactly when some row of [nickname]
    carries the selected profile and the member looked at is the caller (the
    construction passes the keyword [bot]), and returns normally otherwise. *)
Theorem ratings_hook_outcome (emojis : Emojis) (env : Env) (interaction : Interaction)
    (member : Member) (profile : Profile) (w : World) :
  (ratings_nickname_hook emojis env interaction member profile w).2 = w
  /\ ((ratings_nickname_hook emojis env interaction member profile w).1 = Raise TypeError
      <-> (exists (id : Z) (row : nickname_row),
             nickname (db w) !! id = Some row /\ profile_id row = Some (p_id profile))
          /\ m_id member = m_id (user interaction))
  /\ ((ratings_nickname_hook emojis env interaction member profile w).1 = Ok tt
      \/ (ratings_nickname_hook emojis env interaction member profile w).1
         = Raise TypeError).
Proof.
  rewrite ratings_nickname_hook_frame. cbn [fst snd].
  split; [reflexivity|]. split.
  - case_bool_decide as Hex; cbn [andb].
    + destruct (Z.eqb_spec (m_id member) (m_id (user interaction))) as [Heq|Hne].
      * split; [intros _|done]. split; [|done].
        apply Exists_exists in Hex as ([id row] & Hin & Hrow).
        exists id, row. split; [|done].
        by apply elem_of_map_to_list.
      * split; [done|]. by intros [_ ?].
    + split; [done|]. intros [(id & row & Hl & Hp) _]. exfalso. apply Hex.
      apply Exists_exists. exists (id, row). split; [|done].
      by apply elem_of_map_to_list.
  - destruct (_ && _); [by right|by left].
Qed.

Lemma ratings_hook_outcome_witness :
  (ratings_nickname_hook demo_emojis (demo_env None) demo_interaction demo_member
     demo_profile (demo_world {[ 7 := demo_row ]})).1 = Raise TypeError.
Proof.
  apply (proj2 (proj1 (proj2 (ratings_hook_outcome demo_emojis (demo_env None)
                                demo_interaction demo_member demo_profile
                                (demo_world {[ 7 := demo_row ]}))))).
  split.
  - exists 7, demo_row. split; reflexivity.
  - reflexivity.
Defined.

(** X15: declining the prompt ends the command body at once, for a bound
    account as for an unbound one: the body returns normally and the only
    thing that happened is the prompt. *)
Theorem nickname_body_declined (emojis : Emojis) (env : Env) (interaction : Interaction)
    (nick : Nickname) (w : World) :
  prompt_answer env = false ->
  nickname_body emojis env interaction nick w
  = (Ok tt,
     {| db := db w; nicks := nicks w;
        outbox := outbox w
                  ++ [Prompt (if bool_decide (is_Some (nickname (db w) !! m_id (n_member nick)))
                              then "This will remove your SRs in your nickname."
                              else "This will display your SRs in your nickname.")];
        response_done := response_done w |}).
Proof.
  intros Hans. unfold nickname_body, prompt. unfold_m. rewrite exists__spec.
  destruct (bool_decide _); cbn beta iota; rewrite Hans; reflexivity.
Qed.

Lemma nickname_body_declined_witness :
  nickname_body demo_emojis
    (demo_command_env false false false None)
    demo_interaction demo_nick (demo_world {[ 7 := demo_row ]})
  = (Ok tt,
     {| db := demo_db {[ 7 := demo_row ]}; nicks := ∅;
        outbox := [Prompt "This will remove your SRs in your nickname."];
        response_done := true |}).
Proof.
  rewrite (nickname_body_declined demo_emojis (demo_command_env false false false None)
             demo_interaction demo_nick (demo_world {[ 7 := demo_row ]}))
    by reflexivity.
  reflexivity.
Defined.

(** X16: for an unbound account that accepts the prompt in a guild where the
    top role of the bot is below the author's, the body sends the message
    about the role and stops: no menu, no edit, no row. *)
Theorem nickname_body_role_too_low (emojis : Emojis) (env : Env)
    (interaction : Interaction) (nick : Nickname) (g : Z) (w : World) :
  nickname (db w) !! m_id (n_member nick) = None ->
  prompt_answer env = true ->
  guild interaction = Some g ->
  top_role_lt env = true ->
  nickname_body emojis env interaction nick w
  = (Ok tt,
     {| db := db w; nicks := nicks w;
        outbox := outbox w ++ [Prompt "This will display your SRs in your nickname.";
                               FollowupSend role_too_low_message false];
        response_done := response_done w |}).
Proof.
  intros Hrow Hans Hg Hrole.
  unfold nickname_body, prompt. unfold_m. rewrite exists__spec.
  rewrite bool_decide_eq_false_2 by (rewrite Hrow; by intros [? ?]).
  cbn beta iota. rewrite Hans. cbn beta iota. change (negb true) with false.
  rewrite Hg, Hrole. cbn [db nicks outbox response_done].
  by rewrite <- app_assoc.
Qed.

Lemma nickname_body_role_too_low_witness :
  nickname_body demo_emojis (demo_command_env true true false None) demo_interaction
    demo_nick (demo_world ∅)
  = (Ok tt,
     {| db := demo_db ∅; nicks := ∅;
        outbox := [Prompt "This will display your SRs in your nickname.";
                   FollowupSend role_too_low_message false];
        response_done := true |}).
Proof.
  apply (nickname_body_role_too_low demo_emojis (demo_command_env true true false None)
           demo_interaction demo_nick 1 (demo_world ∅)).
  - reflexivity.
  - reflexivity.
  - reflexivity.
  - reflexivity.
Defined.

(** X17: when the one profile of an unbound account is private, the body
    answers with the embed for private profiles and stops: no menu is sent,
    no nickname is edited and no row is written. *)
Theorem nickname_body_private_profile (emojis : Emojis) (env : Env)
    (interaction : Interaction) (nick : Nickname) (g : Z) (r : profile_row) (w : World) :
  nickname (db w) !! m_id (n_member nick) = None ->
  prompt_answer env = true ->
  guild interaction = Some g ->
  top_role_lt env = false ->
  candidates env interaction None w = [r] ->
  d_private (fetched env (pr_id r)) = true ->
  nickname_body emojis env interaction nick w
  = (Ok tt,
     {| db := db w; nicks := nicks w;
        outbox := outbox w ++ [Prompt "This will display your SRs in your nickname.";
                               FollowupSendPrivateEmbed (pr_id r)];
        response_done := response_done w |}).
Proof.
  intros Hrow Hans Hg Hrole Hc Hpriv.
  rewrite (nickname_body_unbound_accepted emojis env interaction nick g w Hrow Hans Hg Hrole).
  unfold_m.
  match goal with
  | |- context [select_profile env interaction ?m None ?w1] =>
      rewrite (select_profile_single env interaction m None r w1 Hc)
  end.
  unfold is_private, compute_data. cbn [p_data p_id Profile_of_record].
  rewrite Hpriv. cbn [db nicks outbox response_done].
  by rewrite <- app_assoc.
Qed.

Lemma nickname_body_private_profile_witness :
  nickname_body demo_emojis (demo_command_env true false true None) demo_interaction
    demo_nick demo_single_world
  = (Ok tt,
     {| db := demo_single_db; nicks := ∅;
        outbox := [Prompt "This will display your SRs in your nickname.";
                   FollowupSendPrivateEmbed 3];
        response_done := true |}).
Proof.
  apply (nickname_body_private_profile demo_emojis (demo_command_env true false true None)
           demo_interaction demo_nick 1
           {| pr_id := 3; pr_member_id := 7; pr_platform := "pc";
              pr_username := lit "Alice#1234" |} demo_single_world).
  - reflexivity.
  - reflexivity.
  - reflexivity.
  - reflexivity.
  - reflexivity.
  - reflexivity.
Defined.

(** X18: the whole bind, for an unbound caller with one public profile who
    accepts the prompt in a guild where the role of the bot is high enough
    and the edit is applied: the body returns normally; the caller's
    nickname in the guild becomes the encoding of the caller's name with the
    ratings the stats provider gave for the profile; the row of the caller
    is inserted with the guild and the profile; and after the prompt only
    the confirmation is sent. *)
Theorem nickname_body_binds_single_profile (emojis : Emojis) (env : Env)
    (interaction : Interaction) (nick : Nickname) (g : Z) (r : profile_row) (w : World) :
  n_member nick = user interaction ->
  n_guild nick = guild interaction ->
  nickname (db w) !! m_id (user interaction) = None ->
  prompt_answer env = true ->
  guild interaction = Some g ->
  top_role_lt env = false ->
  candidates env interaction None w = [r] ->
  d_private (fetched env (pr_id r)) = false ->
  edit_raises env = None ->
  nickname_body emojis env interaction nick w
  = (Ok tt,
     {| db := with_nickname (db w)
                (<[m_id (user interaction)
                   := {| server_id := g; profile_id := Some (pr_id r) |}]>
                   (nickname (db w)));
        nicks := <[(g, m_id (user interaction))
                   := generate_with emojis MAX_NICKNAME_LENGTH (m_name (user interaction))
                        (d_ratings (fetched env (pr_id r)))]> (nicks w);
        outbox := outbox w ++ [Prompt "This will display your SRs in your nickname.";
                               FollowupSend "Nickname successfully set." true];
        response_done := response_done w |}).
Proof.
  intros Hm Hgn Hrow Hans Hg Hrole Hc Hpriv He.
  rewrite <- Hm in Hrow.
  rewrite (nickname_body_unbound_accepted emojis env interaction nick g w Hrow Hans Hg Hrole).
  unfold_m.
  match goal with
  | |- context [select_profile env interaction ?m None ?w1] =>
      rewrite (select_profile_single env interaction m None r w1 Hc)
  end.
  unfold is_private, compute_data. cbn [p_data p_id Profile_of_record].
  rewrite Hpriv.
  match goal with
  | |- context [set_or_remove emojis env ?self ?pid false ?w1] =>
      rewrite (set_or_remove_set_applied emojis env self
                 {| p_id := pr_id r; p_platform := pr_platform r;
                    p_username := pr_username r;
                    p_data := Some (fetched env (pr_id r)) |}
                 g pid w1)
  end; try done.
  - cbn [with_profile n_member n_guild db nicks outbox response_done resolve_ratings p_data].
    rewrite Hm. by rewrite <- app_assoc.
  - cbn [with_profile n_guild]. by rewrite Hgn.
Qed.

Lemma nickname_body_binds_single_profile_witness :
  nickname_body demo_emojis (demo_command_env true false false None) demo_interaction
    demo_nick demo_single_world
  = (Ok tt,
     {| db := with_nickname demo_single_db
                (<[7 := {| server_id := 1; profile_id := Some 3 |}]> ∅);
        nicks := <[(1, 7) := generate_with demo_emojis MAX_NICKNAME_LENGTH (lit "Alice")
                               (Some [("tank"%string, 1000)])]> ∅;
        outbox := [Prompt "This will display your SRs in your nickname.";
                   FollowupSend "Nickname successfully set." true];
        response_done := true |}).
Proof.
  apply (nickname_body_binds_single_profile demo_emojis
           (demo_command_env true false false None) demo_interaction demo_nick 1
           {| pr_id := 3; pr_member_id := 7; pr_platform := "pc";
              pr_username := lit "Alice#1234" |} demo_single_world).
  - reflexivity.
  - reflexivity.
  - reflexivity.
  - reflexivity.
  - reflexivity.
  - reflexivity.
  - reflexivity.
  - reflexivity.
  - reflexivity.
Defined.

(** X19: when a bound caller accepts the removal and the edit raises
    something that is no HTTP error, the command body catches it: the body
    returns normally, the text of the exception is sent after the prompt,
    and the row and the nickname stay as they were. *)
Theorem nickname_body_reports_unexpected_error (emojis : Emojis) (env : Env)
    (interaction : Interaction) (nick : Nickname) (g : Z) (e : exn) (w : World) :
  is_Some (nickname (db w) !! m_id (n_member nick)) ->
  prompt_answer env = true ->
  n_guild nick = Some g ->
  edit_raises env = Some e ->
  is_HTTPException e = false ->
  nickname_body emojis env interaction nick w
  = (Ok tt,
     {| db := db w; nicks := nicks w;
        outbox := outbox w ++ [Prompt "This will remove your SRs in your nickname.";
                               FollowupSendExn e];
        response_done := response_done w |}).
Proof.
  intros Hrow Hans Hg He Hno. unfold nickname_body, prompt. unfold_m.
  rewrite exists__spec.
  rewrite bool_decide_eq_true_2 by done. cbn beta iota. rewrite Hans. cbn beta iota.
  rewrite (set_or_remove_remove_raises emojis env nick None g e _ Hg He Hno).
  cbn [is_Exception db nicks outbox response_done].
  by rewrite <- app_assoc.
Qed.

Lemma nickname_body_reports_unexpected_error_witness :
  nickname_body demo_emojis (demo_command_env true false false (Some OSError))
    demo_interaction demo_nick (demo_world {[ 7 := demo_row ]})
  = (Ok tt,
     {| db := demo_db {[ 7 := demo_row ]}; nicks := ∅;
        outbox := [Prompt "This will remove your SRs in your nickname.";
                   FollowupSendExn OSError];
        response_done := true |}).
Proof.
  apply (nickname_body_reports_unexpected_error demo_emojis
           (demo_command_env true false false (Some OSError)) demo_interaction demo_nick
           1 OSError (demo_world {[ 7 := demo_row ]})).
  - exists demo_row. reflexivity.
  - reflexivity.
  - reflexivity.
  - reflexivity.
  - reflexivity.
Defined.



(** ** Properties of the argument converters *)

Lemma valid_lookup_items (k v : str) :
  valid !! k = Some v -> (k, v) ∈ valid_items.
Proof. apply elem_of_list_to_map_2. Qed.

Lemma valid_values (k v : str) :
  valid !! k = Some v ->
  v ∈ [lit "pc"; lit "xbl"; lit "psn"; lit "nintendo-switch"].
Proof.
  intros H%valid_lookup_items. unfold valid_items in H.
  rewrite !elem_of_cons, elem_of_nil in H.
  destruct_or!; try done; simplify_eq; set_solver.
Qed.

Lemma aliases_values (k v : str) :
  aliases !! k = Some v ->
  v ∈ [lit "soldier76"; lit "wreckingBall"; lit "dVa"; lit "lucio"].
Proof.
  intros H%elem_of_list_to_map_2. unfold aliases_items in H.
  rewrite !elem_of_cons, elem_of_nil in H.
  destruct_or!; try done; simplify_eq; set_solver.
Qed.

(** X21: whatever [str.lower] does, [valid_platform] returns one of the four
    platform names [pc], [xbl], [psn] and [nintendo-switch], or raises
    [BadArgument] with the text "Unknown platform."; it raises exactly when
    the lowered argument is none of the twelve keys of the dict. *)
Theorem valid_platform_range (lower : str -> str) (argument : str) :
  ((exists platform : str,
      valid_platform lower argument = Converted platform
      /\ platform ∈ [lit "pc"; lit "xbl"; lit "psn"; lit "nintendo-switch"])
   \/ valid_platform lower argument = BadArgument (lit "Unknown platform."))
  /\ (valid_platform lower argument = BadArgument (lit "Unknown platform.")
      <-> lower argument ∉ map fst valid_items).
Proof.
  unfold valid_platform. split.
  - destruct (valid !! lower argument) as [v|] eqn:Hv; [left|by right].
    exists v. split; [done|]. by apply (valid_values (lower argument)).
  - destruct (valid !! lower argument) as [v|] eqn:Hv.
    + split; [done|]. intros Hnot. exfalso. apply Hnot.
      apply valid_lookup_items in Hv.
      by apply (list_elem_of_fmap_2 fst) in Hv.
    + split; [intros _|done].
      by apply not_elem_of_list_to_map in Hv.
Qed.

Lemma valid_platform_range_witness :
  valid_platform ascii_lower (lit "Steam") = BadArgument (lit "Unknown platform.").
Proof.
  apply (proj2 (proj2 (valid_platform_range ascii_lower (lit "Steam")))).
  apply (bool_decide_unpack _). by vm_compute.
Defined.

(** X22: where [str.lower] is the lowering of the ASCII range, the names
    [valid_platform] returns are fixed points: converting a returned name
    again gives the same name, so the conversion is idempotent. *)
Theorem valid_platform_idempotent (lower : str -> str) (argument platform : str) :
  (forall s : str, is_ascii s -> lower s = ascii_lower s) ->
  valid_platform lower argument = Converted platform ->
  valid_platform lower platform = Converted platform.
Proof.
  intros Hlower Hconv. unfold valid_platform in Hconv.
  destruct (valid !! lower argument) as [v|] eqn:Hv; [|done].
  inversion Hconv; subst v. apply valid_values in Hv.
  rewrite !elem_of_cons, elem_of_nil in Hv.
  unfold valid_platform.
  destruct_or!; try done; subst platform;
    (rewrite Hlower by (vm_compute; repeat constructor)); reflexivity.
Qed.

Lemma valid_platform_idempotent_witness :
  valid_platform ascii_lower (lit "xbl") = Converted (lit "xbl").
Proof.
  apply (valid_platform_idempotent ascii_lower (lit "XBox") (lit "xbl")).
  - intros s _. reflexivity.
  - reflexivity.
Defined.

(** X23: [Hero.convert]: an alias wins over the hero table, and its target
    is returned without being looked up there; a converted hero is a target
    of an alias or the lowered argument, the latter only when the hero table
    holds a value for it; and the conversion fails exactly when the lowered
    argument is no alias and the hero table has no value for it, with a
    message that quotes the argument as it was typed. *)
Theorem Hero_convert_outcomes (lower : str -> str) (hero_info : Type)
    (heroes : gmap str (option hero_info)) (argument : str) :
  (forall hero : str,
     aliases !! lower argument = Some hero ->
     Hero_convert lower hero_info heroes argument = Converted hero)
  /\ (forall hero : str,
        Hero_convert lower hero_info heroes argument = Converted hero ->
        hero ∈ [lit "soldier76"; lit "wreckingBall"; lit "dVa"; lit "lucio"]
        \/ (hero = lower argument
            /\ exists info : hero_info, heroes !! lower argument = Some (Some info)))
  /\ (forall message : str,
        Hero_convert lower hero_info heroes argument = BadArgument message ->
        message = lit "Unknown hero: **" ++ argument ++ lit "**.")
  /\ ((exists message : str,
         Hero_convert lower hero_info heroes argument = BadArgument message)
      <-> aliases !! lower argument = None
          /\ dict_get hero_info heroes (lower argument) = None).
Proof.
  unfold Hero_convert, dict_get. cbn zeta.
  destruct (aliases !! lower argument) as [h|] eqn:Ha.
  - split; [intros hero [= ->]; reflexivity|].
    split; [intros hero [= <-]; left; by apply (aliases_values (lower argument))|].
    split; [done|]. split; [by intros [? ?]|by intros [? _]].
  - split; [done|].
    destruct (heroes !! lower argument) as [[info|]|] eqn:Hh.
    + split; [intros hero [= <-]; right; split; [done|by exists info]|].
      split; [done|]. split; [by intros [? ?]|by intros [_ ?]].
    + split; [done|]. split; [by intros message [= <-]|].
      split; [done|by eexists].
    + split; [done|]. split; [by intros message [= <-]|].
      split; [done|by eexists].
Qed.

Lemma Hero_convert_outcomes_witness :
  Hero_convert ascii_lower unit {[ lit "dva" := Some tt ]} (lit "D.Va")
  = Converted (lit "dVa").
Proof.
  apply (proj1 (Hero_convert_outcomes ascii_lower unit {[ lit "dva" := Some tt ]}
                  (lit "D.Va"))).
  reflexivity.
Defined.

(** ** Properties of the [color] command *)

Lemma lookup_update_embed_color (id author : Z) (c : option Z) (t : gmap Z (option Z)) :
  update_embed_color author c t !! id
  = if decide (id = author) then (fun _ => c) <$> t !! id else t !! id.
Proof.
  unfold update_embed_color. destruct (decide (id = author)) as [->|Hne].
  - by rewrite lookup_alter_eq.
  - by rewrite lookup_alter_ne.
Qed.

Lemma color_command_other (author : Z) (color : option Z) (b : MemberBot) (id : Z) :
  id <> author ->
  embed_color (color_command author color b) !! id = embed_color b !! id
  /\ embed_colors (color_command author color b) !! id = embed_colors b !! id.
Proof.
  intros Hne. unfold color_command.
  destruct color as [c|]; [|destruct (embed_colors b !! author)];
    cbn [embed_color embed_colors]; rewrite lookup_update_embed_color;
    rewrite decide_False by done; split; try done.
  - by rewrite lookup_insert_ne.
  - by rewrite lookup_delete_ne.
Qed.

Lemma color_command_author (author : Z) (color : option Z) (b : MemberBot) :
  is_Some (embed_color b !! author) ->
  embed_color (color_command author color b) !! author = Some color
  /\ embed_colors (color_command author color b) !! author = color.
Proof.
  intros [old Hold]. unfold color_command.
  destruct color as [c|]; [|destruct (embed_colors b !! author) eqn:Hcur];
    cbn [embed_color embed_colors]; rewrite lookup_update_embed_color;
    rewrite decide_True by done; rewrite Hold; split; try done.
  - by rewrite lookup_insert_eq.
  - by rewrite lookup_delete_eq.
Qed.

(** X24: the [color] command touches the author only: the row and the dict
    entry of every other member are as they were, no row is added to or
    removed from the table, and exactly one message is sent. *)
Theorem color_command_frame (author : Z) (color : option Z) (b : MemberBot) :
  (forall id : Z,
     id <> author ->
     embed_color (color_command author color b) !! id = embed_color b !! id
     /\ embed_colors (color_command author color b) !! id = embed_colors b !! id)
  /\ (forall id : Z,
        is_Some (embed_color (color_command author color b) !! id)
        <-> is_Some (embed_color b !! id))
  /\ exists o : member_output,
       ctx_sent (color_command author color b) = ctx_sent b ++ [o].
Proof.
  split; [|split].
  - intros id. apply color_command_other.
  - intros id. unfold color_command.
    destruct color as [c|]; [|destruct (embed_colors b !! author)];
      cbn [embed_color]; rewrite lookup_update_embed_color;
      destruct (decide (id = author)); try done; by rewrite fmap_is_Some.
  - unfold color_command.
    destruct color as [c|]; [|destruct (embed_colors b !! author)]; by eexists.
Qed.

Lemma color_command_frame_witness :
  embed_color (color_command 1 (Some 255) demo_bot) !! 2 = embed_color demo_bot !! 2
  /\ embed_colors (color_command 1 (Some 255) demo_bot) !! 2 = embed_colors demo_bot !! 2.
Proof.
  apply (proj1 (color_command_frame 1 (Some 255) demo_bot) 2).
  lia.
Defined.

(** X25: when the author has a row in [member], the command keeps the dict
    [bot.embed_colors] and the column [embed_color] in agreement: after a
    set both hold the colour, after a reset the column is NULL and the dict
    has no entry. *)
Theorem color_command_keeps_agreement (author : Z) (color : option Z) (b : MemberBot) :
  colors_agree b ->
  is_Some (embed_color b !! author) ->
  colors_agree (color_command author color b)
  /\ embed_color (color_command author color b) !! author = Some color
  /\ embed_colors (color_command author color b) !! author = color.
Proof.
  intros Hagree Hrow.
  destruct (color_command_author author color b Hrow) as [Ht Hd].
  split; [|done].
  intros id. destruct (decide (id = author)) as [->|Hne].
  - by rewrite Ht, Hd.
  - destruct (color_command_other author color b id Hne) as [-> ->].
    apply Hagree.
Qed.

Lemma demo_bot_agrees : colors_agree demo_bot.
Proof.
  intros id. unfold demo_bot. cbn [embed_color embed_colors].
  destruct (decide (id = 1)) as [->|H1]; [done|].
  destruct (decide (id = 2)) as [->|H2]; [done|].
  rewrite lookup_insert_ne, lookup_singleton_ne by done.
  by rewrite lookup_singleton_ne.
Qed.

Lemma color_command_keeps_agreement_witness :
  colors_agree (color_command 1 (Some 255) demo_bot)
  /\ embed_color (color_command 1 (Some 255) demo_bot) !! 1 = Some (Some 255)
  /\ embed_colors (color_command 1 (Some 255) demo_bot) !! 1 = Some 255.
Proof.
  apply (color_command_keeps_agreement 1 (Some 255) demo_bot).
  - exact demo_bot_agrees.
  - exists None. reflexivity.
Defined.

(** X26: the dict is written even when the table is not: for an author
    without a row in [member] the UPDATE changes nothing, so after setting a
    colour the dict holds it while the table has no row for the author, and
    the two no longer agree. *)
Theorem color_set_without_row (author : Z) (c : Z) (b : MemberBot) :
  embed_color b !! author = None ->
  embed_color (color_command author (Some c) b) = embed_color b
  /\ embed_colors (color_command author (Some c) b) !! author = Some c
  /\ ~ colors_agree (color_command author (Some c) b).
Proof.
  intros Hrow.
  assert (embed_color (color_command author (Some c) b) = embed_color b) as Ht.
  { unfold color_command, update_embed_color. cbn [embed_color].
    apply map_eq. intros id. destruct (decide (id = author)) as [->|Hne].
    - by rewrite lookup_alter_eq, Hrow.
    - by rewrite lookup_alter_ne. }
  assert (embed_colors (color_command author (Some c) b) !! author = Some c) as Hd.
  { unfold color_command. cbn [embed_colors]. by rewrite lookup_insert_eq. }
  split; [done|]. split; [done|].
  intros Hagree. specialize (Hagree author).
  rewrite Hd, Ht, Hrow in Hagree. done.
Qed.

Lemma color_set_without_row_witness :
  ~ colors_agree (color_command 3 (Some 255) demo_bot).
Proof.
  apply (color_set_without_row 3 255 demo_bot).
  reflexivity.
Defined.

Lemma color_command_reset_present (author : Z) (c : Z) (b : MemberBot) :
  embed_colors b !! author = Some c ->
  color_command author None b
  = {| embed_color := update_embed_color author None (embed_color b);
       embed_colors := delete author (embed_colors b);
       ctx_sent := ctx_sent b ++ [CtxSend "Color successfully reset."] |}.
Proof. intros H. unfold color_command. by rewrite H. Qed.

Lemma color_command_reset_absent (author : Z) (b : MemberBot) :
  embed_colors b !! author = None ->
  color_command author None b
  = {| embed_color := update_embed_color author None (embed_color b);
       embed_colors := embed_colors b;
       ctx_sent := ctx_sent b ++ [CtxSend "Color already set to default."] |}.
Proof. intros H. unfold color_command. by rewrite H. Qed.

(** X27: resetting: after a colour was set, a reset removes the entry of the
    author from the dict and answers "Color successfully reset."; a second
    reset changes neither the table nor the dict again and answers "Color
    already set to default.". *)
Theorem color_reset_twice (author : Z) (c : Z) (b : MemberBot) :
  let set := color_command author (Some c) b in
  let reset := color_command author None set in
  let again := color_command author None reset in
  embed_colors reset = delete author (embed_colors b)
  /\ ctx_sent reset = ctx_sent set ++ [CtxSend "Color successfully reset."]
  /\ embed_color again = embed_color reset
  /\ embed_colors again = embed_colors reset
  /\ ctx_sent again = ctx_sent reset ++ [CtxSend "Color already set to default."].
Proof.
  cbn zeta.
  assert (embed_colors (color_command author (Some c) b) !! author = Some c) as Hset.
  { unfold color_command. cbn [embed_colors]. by rewrite lookup_insert_eq. }
  rewrite (color_command_reset_present author c _ Hset).
  rewrite color_command_reset_absent
    by (cbn [embed_colors]; by rewrite lookup_delete_eq).
  cbn [embed_color embed_colors ctx_sent].
  split; [unfold color_command; cbn [embed_colors]; by rewrite delete_insert_eq|].
  split; [done|]. split; [|done].
  unfold update_embed_color. apply map_eq. intros id.
  destruct (decide (id = author)) as [->|Hne].
  - rewrite !lookup_alter_eq.
    by destruct (embed_color (color_command author (Some c) b) !! author).
  - by rewrite !lookup_alter_ne.
Qed.

(** ** Properties of the [news] command *)

Lemma news_loop_length (total i : Z) (titles links imgs dates : list str) :
  length (news_loop total i titles links imgs dates)
  = Nat.min (Nat.min (length titles) (length links))
      (Nat.min (length imgs) (length dates)).
Proof.
  revert i links imgs dates.
  induction titles as [|title titles IH]; intros i [|link links] [|img imgs] [|date dates];
    simpl; try lia.
  rewrite IH. lia.
Qed.

Lemma news_loop_lookup (total i : Z) (titles links imgs dates : list str) (k : nat)
    (title link img date : str) :
  titles !! k = Some title ->
  links !! k = Some link ->
  imgs !! k = Some img ->
  dates !! k = Some date ->
  news_loop total i titles links imgs dates !! k
  = Some {| e_title := title;
            e_url := link;
            e_author := lit "Blizzard Entertainment";
            e_image := lit "https:" ++ img;
            e_footer := lit "News " ++ str_of_int (i + Z.of_nat k) ++ lit "/"
                        ++ str_of_int total ++ lit " " ++ [8226%N] ++ lit " " ++ date |}.
Proof.
  revert i titles links imgs dates.
  induction k as [|k IH]; intros i [|t titles] [|l links] [|im imgs] [|d dates];
    try done.
  - intros [= ->] [= ->] [= ->] [= ->]. cbn [news_loop lookup list_lookup].
    by rewrite Z.add_0_r.
  - intros Ht Hl Hi Hd. cbn [news_loop].
    change ((?x :: ?xs) !! S k) with (xs !! k).
    rewrite (IH (i + 1) titles links imgs dates Ht Hl Hi Hd).
    by replace (i + 1 + Z.of_nat k) with (i + Z.of_nat (S k)) by lia.
Qed.

(** X28: the amount the [news] command asks the scraper for is at least one:
    no amount and the amount zero give [4], and the sign of the amount does
    not matter. *)
Theorem news_amount_positive (amount : option Z) :
  1 <= news_amount amount
  /\ news_amount (Z.opp <$> amount) = news_amount amount
  /\ news_amount amount
     = (if decide (default 0 amount = 0) then 4 else Z.abs (default 0 amount)).
Proof.
  unfold news_amount. destruct amount as [n|]; cbn [fmap option_fmap option_map default].
  - destruct (Z.eqb_spec n 0) as [->|Hn].
    + cbn. split; [lia|]. by split.
    + destruct (Z.eqb_spec (- n) 0) as [H0|_]; [lia|].
      rewrite decide_False by done. split; [lia|]. split; [lia|done].
  - cbn. split; [lia|]. by split.
Qed.

(** X29: the pages of the [news] command: there are as many as the shortest
    of the four lists the scraper returned; page [k] (from zero) carries the
    [k]-th title, link, image (with the scheme "https:" put in front) and
    date, and its footer numbers it [k + 1] out of the number of titles,
    which is more than the number of pages when another list is shorter. *)
Theorem news_pages_numbering (titles links imgs dates : list str) :
  length (news_pages titles links imgs dates)
  = Nat.min (Nat.min (length titles) (length links))
      (Nat.min (length imgs) (length dates))
  /\ forall (k : nat) (title link img date : str),
       titles !! k = Some title ->
       links !! k = Some link ->
       imgs !! k = Some img ->
       dates !! k = Some date ->
       news_pages titles links imgs dates !! k
       = Some {| e_title := title;
                 e_url := link;
                 e_author := lit "Blizzard Entertainment";
                 e_image := lit "https:" ++ img;
                 e_footer := lit "News " ++ str_of_int (Z.of_nat k + 1) ++ lit "/"
                             ++ str_of_int (len titles) ++ lit " " ++ [8226%N]
                             ++ lit " " ++ date |}.
Proof.
  unfold news_pages. split; [apply news_loop_length|].
  intros k title link img date Ht Hl Hi Hd.
  rewrite (news_loop_lookup _ _ _ _ _ _ k title link img date Ht Hl Hi Hd).
  by rewrite (Z.add_comm 1).
Qed.

Lemma news_pages_numbering_witness :
  news_pages [lit "Patch"; lit "Event"] [lit "/a"; lit "/b"] [lit "//img/b.png"]
    [lit "Nov 1"; lit "Nov 2"] !! 0%nat
  = Some {| e_title := lit "Patch";
            e_url := lit "/a";
            e_author := lit "Blizzard Entertainment";
            e_image := lit "https:" ++ lit "//img/b.png";
            e_footer := lit "News " ++ str_of_int (Z.of_nat 0 + 1) ++ lit "/"
                        ++ str_of_int (len [lit "Patch"; lit "Event"]) ++ lit " "
                        ++ [8226%N] ++ lit " " ++ lit "Nov 1" |}.
Proof.
  apply (proj2 (news_pages_numbering [lit "Patch"; lit "Event"] [lit "/a"; lit "/b"]
                  [lit "//img/b.png"] [lit "Nov 1"; lit "Nov 2"])).
  - reflexivity.
  - reflexivity.
  - reflexivity.
  - reflexivity.
Defined.
